(** * The AI request gateway of postman-to-k6-action

    A shallow embedding of [scripts/ai-utils.js]: key redaction
    ([maskApiKey]), the retrying transport ([makeRequest]), the three
    provider classes, the factory ([createAIProvider]) and the facade
    ([callAI]), followed by the properties the specification states
    about them.

    Conventions of the embedding.
    - A JavaScript string is a [string]; its characters stand for the
      UTF-16 code units, so [String.length] is [.length].
    - Integers are [Z], numbers that need not be integers (delays,
      [temperature]) are [Q]. Arithmetic on doubles is computed where
      it is exact (integers up to 2^53, powers of two in the double
      range) and left open elsewhere, see [Number].
    - A thrown [Error] is represented by its [message].
    - A promise is represented by the way it settles, together with the
      events that happened before and after it settled. *)

From Equations Require Import Equations.
From Stdlib Require Import ZArith QArith Qpower Qreduction.
From Stdlib Require Import Bool List String Ascii Lia.
From Stdlib Require Import DecimalString DecimalPos.
Import ListNotations.

Set Warnings "-register-all".

Local Open Scope string_scope.
Local Open Scope Z_scope.

(** ** JavaScript values *)

Module JS.

(** A parameter or property that may be missing ([undefined]),
    explicitly [null], or hold a value. *)
Inductive Nullable (A : Type) : Type :=
| Undefined
| Null
| Defined (a : A).
Arguments Undefined {A}.
Arguments Null {A}.
Arguments Defined {A} a.

(** What [JSON.parse] can return, plus [undefined] for a property
    that is not there. *)
Inductive Value : Type :=
| VUndefined
| VNull
| VBool (b : bool)
| VNum (q : Q)
| VStr (s : string)
| VArr (items : list Value)
| VObj (fields : list (string * Value)).

(** Normal completion or a thrown error. *)
Inductive Completion (A : Type) : Type :=
| Return (a : A)
| Throw (message : string).
Arguments Return {A} a.
Arguments Throw {A} message.

Definition bind {A B} (c : Completion A) (k : A -> Completion B) : Completion B :=
  match c with
  | Return a => k a
  | Throw m => Throw m
  end.

(** ToBoolean. *)
Definition truthy (v : Value) : bool :=
  match v with
  | VUndefined | VNull => false
  | VBool b => b
  | VNum q => negb (Qeq_bool q 0)
  | VStr s => negb (String.eqb s "")
  | VArr _ | VObj _ => true
  end.

Definition truthyStr (s : Nullable string) : bool :=
  match s with
  | Defined s => negb (String.eqb s "")
  | _ => false
  end.

Definition truthyOpt (s : option string) : bool :=
  match s with
  | Some s => negb (String.eqb s "")
  | None => false
  end.

Definition truthyInt (n : Z) : bool := negb (n =? 0).

(** [a || b] on strings that may be missing. *)
Definition orElse (s : option string) (d : string) : string :=
  if truthyOpt s then match s with Some s => s | None => d end else d.

(** How a template literal renders a value. *)
Definition render (s : Nullable string) : string :=
  match s with
  | Undefined => "undefined"
  | Null => "null"
  | Defined s => s
  end.

Definition renderInt (n : Z) : string :=
  NilZero.string_of_int (Z.to_int n).

Definition ofOption {A} (o : option A) : Nullable A :=
  match o with
  | Some a => Defined a
  | None => Undefined
  end.

(** [s.substring(start, end)]: both indices are clamped to
    [0 .. s.length] and swapped when out of order; a missing [end] is
    the length. *)
Definition clamp (len i : Z) : Z := Z.max 0 (Z.min i len).

Definition substring (s : string) (start : Z) (end_ : option Z) : string :=
  let len := Z.of_nat (String.length s) in
  let a := clamp len start in
  let b := match end_ with Some e => clamp len e | None => len end in
  let lo := Z.min a b in
  let hi := Z.max a b in
  String.substring (Z.to_nat lo) (Z.to_nat (hi - lo)) s.

Definition startsWith (s prefix : string) : bool := String.prefix prefix s.

(** [s.toLowerCase()] on the ASCII letters; other code units are left
    as they are. *)
Definition lowerChar (c : ascii) : ascii :=
  let n := nat_of_ascii c in
  if (Nat.leb 65 n && Nat.leb n 90)%bool then ascii_of_nat (n + 32) else c.

Fixpoint toLowerCase (s : string) : string :=
  match s with
  | EmptyString => EmptyString
  | String c s' => String (lowerChar c) (toLowerCase s')
  end.

(** [s.replace(/\/$/, '')]: one trailing slash is removed. *)
Fixpoint stripTrailingSlash (s : string) : string :=
  match s with
  | EmptyString => EmptyString
  | String c EmptyString => if Ascii.eqb c "/" then EmptyString else s
  | String c s' => String c (stripTrailingSlash s')
  end.

(** What [parseInt(s, 10)] reads, as a mathematical integer: leading
    white space, an optional sign, then the longest run of decimal
    digits; [None] when there is no digit. [parseInt] below turns it
    into a double. *)
Definition isWhite (c : ascii) : bool :=
  let n := nat_of_ascii c in
  (Nat.eqb n 32 || Nat.eqb n 9 || Nat.eqb n 10 || Nat.eqb n 11
   || Nat.eqb n 12 || Nat.eqb n 13 || Nat.eqb n 160)%bool.

Fixpoint trimStart (s : string) : string :=
  match s with
  | String c s' => if isWhite c then trimStart s' else s
  | EmptyString => EmptyString
  end.

Definition digit (c : ascii) : option Z :=
  let n := nat_of_ascii c in
  if (Nat.leb 48 n && Nat.leb n 57)%bool then Some (Z.of_nat (n - 48)) else None.

Fixpoint digits (s : string) (acc : option Z) : option Z :=
  match s with
  | String c s' =>
      match digit c with
      | Some d => digits s' (Some (10 * match acc with Some a => a | None => 0 end + d))
      | None => acc
      end
  | EmptyString => acc
  end.

Definition integerValue (s : string) : option Z :=
  match trimStart s with
  | String "-" s' => option_map Z.opp (digits s' None)
  | String "+" s' => digits s' None
  | s' => digits s' None
  end.

(** Reading a property. On [undefined] and [null] this throws a
    TypeError, with V8's wording. The properties the gateway reads on
    a response ([choices], [message], [content], [text]) exist on
    objects only. *)
Definition cannotRead (v : Value) (prop : string) : string :=
  "Cannot read properties of "
    ++ (match v with VNull => "null" | _ => "undefined" end)
    ++ " (reading '" ++ prop ++ "')".

Fixpoint lookup (fields : list (string * Value)) (prop : string) : Value :=
  match fields with
  | [] => VUndefined
  | (k, v) :: rest => if String.eqb k prop then v else lookup rest prop
  end.

Definition isNullish (v : Value) : bool :=
  match v with
  | VUndefined | VNull => true
  | _ => false
  end.

Definition get (v : Value) (prop : string) : Completion Value :=
  match v with
  | VUndefined | VNull => Throw (cannotRead v prop)
  | VObj fields => Return (lookup fields prop)
  | _ => Return VUndefined
  end.

(** [v[0]]. *)
Definition first (v : Value) : Completion Value :=
  match v with
  | VUndefined | VNull => Throw (cannotRead v "0")
  | VArr items => Return (match items with x :: _ => x | [] => VUndefined end)
  | VStr s => Return (match s with String c _ => VStr (String c "") | "" => VUndefined end)
  | VObj fields => Return (lookup fields "0")
  | _ => Return VUndefined
  end.

(** [v?.prop]: [undefined] when [v] is nullish. *)
Definition getOpt (v : Value) (prop : string) : Value :=
  match v with
  | VObj fields => lookup fields prop
  | _ => VUndefined
  end.

(** [a || b]. *)
Definition or (a b : Value) : Value := if truthy a then a else b.

End JS.
Import JS.

Notation "x <- c ;; k" := (JS.bind c (fun x => k))
  (at level 61, c at next level, right associativity).

(** ** Key redaction *)

(** [maskApiKey(apiKey)], for a key that is a string, [undefined] or
    [null]. *)
Definition maskApiKey (apiKey : Nullable string) : string :=
  match apiKey with
  | Defined key =>
      if (negb (truthyStr apiKey) || (Z.of_nat (String.length key) <=? 8))%bool
      then "***"
      else substring key 0 (Some 4) ++ "***"
             ++ substring key (Z.of_nat (String.length key) - 4) None
  | _ => "***"
  end.

(** ** Transport *)

Inductive Protocol : Type := Https | Http.

(** The [options] object handed to [protocol.request]. A header value
    is whatever the caller stored there. *)
Record Options : Type := {
  method : string;
  headers : list (string * Nullable string)
}.

(** What [req.write] was given: nothing when [body] is falsy, the
    string itself when [body] is a string, [JSON.stringify(body)]
    otherwise (kept as the value that is serialised). *)
Inductive Written : Type :=
| NothingWritten
| WrittenText (s : string)
| WrittenJSON (v : Value).

Record Exchange : Type := {
  protocol : Protocol;
  url : string;
  options : Options;
  written : Written
}.

(** A JavaScript number used as a delay: NaN, a double whose value
    the embedding computes, or [Beyond], a double it does not compute
    (the result of an operation that rounds or overflows, which may be
    infinite or NaN); nothing is stated about the latter. *)
Inductive Number : Type :=
| NaN
| Num (q : Q)
| Beyond.

(** The integers up to 2^53 in absolute value. A double holds each of
    them exactly, and the product of two of them is computed exactly
    when it is one of them. *)
Definition exact (n : Z) : bool := Z.abs n <=? 2 ^ 53.

Definition ofInteger (n : Z) : Number :=
  if exact n then Num (inject_Z n) else Beyond.

Definition integerOf (x : Number) : option Z :=
  match x with
  | Num q =>
      if (Pos.eqb (Qden q) 1 && exact (Qnum q))%bool then Some (Qnum q) else None
  | _ => None
  end.

(** [a * b] on doubles: NaN when an operand is NaN, the exact product
    of two integers when it is exact. *)
Definition times (a b : Number) : Number :=
  match a, b with
  | NaN, _ | _, NaN => NaN
  | _, _ =>
      match integerOf a, integerOf b with
      | Some x, Some y => ofInteger (x * y)
      | _, _ => Beyond
      end
  end.

(** [parseInt(s, 10)]: NaN without digits, otherwise the double
    nearest to the integer read, which is that integer up to 2^53. *)
Definition parseInt (s : string) : Number :=
  match integerValue s with
  | Some n => ofInteger n
  | None => NaN
  end.

(** What the outside world does with one attempt: the response ends
    (['end'] on [res]), the request emits ['error'], or the attempt's
    timer fires first. In the last case [req.destroy()] is called;
    [destroyError] is the message of the ['error'] event the destroyed
    request emits afterwards, if it emits one. Before any of this,
    [protocol.request(url, options, ...)] may refuse the request by
    throwing (a URL it cannot use, a header value that is [undefined]
    or holds a line break): that is [Threw], with the message of the
    exception. *)
Inductive Outcome : Type :=
| Responded (statusCode : Z) (statusMessage : string)
            (retryAfter : option string) (data : string)
| Errored (message : string)
| TimerFired (destroyError : option string)
| Threw (message : string).

(** Console output. The three retry lines of [makeRequest] are kept
    structured, with the delay as a number. *)
Inductive LogLine : Type :=
| RateLimitedLine (delay : Number)
| ServerErrorLine (statusCode : Z) (delay : Number)
| RequestErrorLine (message : string) (delay : Number)
| Info (text : string)
| Failure (text : string).

(** [Uncaught] is an exception thrown in a callback, where nothing
    catches it. *)
Inductive Event : Type :=
| Attempt (e : Exchange)
| Sleep (ms : Number)
| Log (line : LogLine)
| Uncaught (message : string).

Inductive Settlement : Type :=
| Resolved (v : Value)
| Rejected (message : string).

(** A promise together with its history: how it settles, the events up
    to that moment, and the events the same call still causes
    afterwards (a settled promise ignores later [resolve] and [reject]
    calls, but the code that makes them still runs). *)
Record Run : Type := {
  settled : Settlement;
  before : list Event;
  after : list Event
}.

Definition exchange (url : string) (options : Options) (body : Value) : Exchange :=
  {| protocol := if startsWith url "https" then Https else Http;
     url := url;
     options := options;
     written := if truthy body
                then match body with
                     | VStr s => WrittenText s
                     | _ => WrittenJSON body
                     end
                else NothingWritten |}.

(** [retryAfter * 1000 * (3 - retries)] *)
Definition rateLimitDelay (retryAfter : Number) (retries : Z) : Number :=
  times (times retryAfter (Num 1000)) (ofInteger (3 - retries)).

(** [1000 * Math.pow(2, 2 - retries)]. The power of two is a double
    for the exponents from -1074 to 1023 and 0 below them (underflow);
    its product with 1000 is exact up to the exponent 1014 and
    overflows above. [makeRequest] computes it for [retries > 0]
    only, where the exponent is at most 1. *)
Definition backoffDelay (retries : Z) : Number :=
  let exponent := 2 - retries in
  if exponent <? -1074 then Num 0
  else if 1014 <? exponent then Beyond
  else Num (Qred (1000 * Qpower 2 exponent)).

(** The outer promise follows the retry: [.then(resolve).catch(reject)]. *)
Definition followedBy (events : list Event) (retry : Run) : Run :=
  {| settled := settled retry;
     before := events ++ before retry;
     after := after retry |}.

Definition timeoutMessage (timeout : Z) : string :=
  "Request timeout after " ++ renderInt timeout ++ "ms".

(** What reading [req] throws when [protocol.request] threw and left
    it without a value, in V8's wording. *)
Definition uninitialised : string := "Cannot access 'req' before initialization".

Definition failureMessage (statusCode : Z) (statusMessage data : string) : string :=
  "API request failed: " ++ renderInt statusCode ++ " " ++ statusMessage
    ++ String (ascii_of_nat 10) data.

Section Transport.

(** [JSON.parse]; [None] when it throws. *)
Variable JSON_parse : string -> option Value.

(** [makeRequest(url, options, body, retries, timeout)]. [backend]
    gives the outcome of this attempt ([backend 0]) and of the
    attempts issued after it. *)
Equations? makeRequest (backend : nat -> Outcome) (url : string)
    (options : Options) (body : Value) (retries : Z) (timeout : Z)
  : Run by wf (Z.to_nat retries) lt :=
  makeRequest backend url options body retries timeout :=
    let attempt := Attempt (exchange url options body) in
    let later := fun k => backend (S k) in
    match backend 0%nat with
    | Responded statusCode statusMessage retryAfterHeader data =>
        if ((200 <=? statusCode) && (statusCode <? 300))%bool then
          {| settled := Resolved match JSON_parse data with
                                 | Some v => v
                                 | None => VStr data
                                 end;
             before := [attempt];
             after := [] |}
        else
          match statusCode =? 429, Z_gt_dec retries 0 with
          | true, left _ =>
              let retryAfter := parseInt (orElse retryAfterHeader "5") in
              let delay := rateLimitDelay retryAfter retries in
              followedBy [attempt; Log (RateLimitedLine delay); Sleep delay]
                (makeRequest later url options body (retries - 1) timeout)
          | _, _ =>
              match 500 <=? statusCode, Z_gt_dec retries 0 with
              | true, left _ =>
                  let delay := backoffDelay retries in
                  followedBy
                    [attempt; Log (ServerErrorLine statusCode delay); Sleep delay]
                    (makeRequest later url options body (retries - 1) timeout)
              | _, _ =>
                  {| settled := Rejected (failureMessage statusCode statusMessage data);
                     before := [attempt];
                     after := [] |}
              end
          end
    | Errored message =>
        match Z_gt_dec retries 0 with
        | left _ =>
            let delay := backoffDelay retries in
            followedBy
              [attempt; Log (RequestErrorLine message delay); Sleep delay]
              (makeRequest later url options body (retries - 1) timeout)
        | right _ =>
            {| settled := Rejected message; before := [attempt]; after := [] |}
        end
    | TimerFired destroyError =>
        {| settled := Rejected (timeoutMessage timeout);
           before := [attempt];
           after :=
             match destroyError with
             | Some message =>
                 match Z_gt_dec retries 0 with
                 | left _ =>
                     let delay := backoffDelay retries in
                     let retry :=
                       makeRequest later url options body (retries - 1) timeout in
                     [Log (RequestErrorLine message delay); Sleep delay]
                       ++ before retry ++ after retry
                 | right _ => []
                 end
             | None => []
             end |}
    | Threw message =>
        (* the executor's exception rejects the promise; the timer set
           before it stays armed, and its callback reads [req] *)
        {| settled := Rejected message;
           before := [];
           after := [Uncaught uninitialised] |}
    end.
Proof. all: lia. Qed.

End Transport.

(** ** Provider classes *)

Inductive Family : Type := OpenAI | Claude | Local.

(** The fields every provider object holds ([this.apiKey], ...). *)
Record Provider : Type := {
  family : Family;
  apiKey : Nullable string;
  baseUrl : string;
  model : string;
  timeout : Z;
  maxRetries : Z
}.

(** A parameter default applies when the argument is [undefined]. *)
Definition defaultTo {A} (d : A) (o : option A) : A :=
  match o with
  | Some a => a
  | None => d
  end.

Definition OpenAIProvider (apiKey : Nullable string) (baseUrl model : option string)
    (timeout maxRetries : option Z) : Provider :=
  {| family := OpenAI;
     apiKey := apiKey;
     baseUrl := stripTrailingSlash (defaultTo "https://api.openai.com/v1" baseUrl);
     model := defaultTo "gpt-3.5-turbo" model;
     timeout := defaultTo 30000 timeout;
     maxRetries := defaultTo 2 maxRetries |}.

Definition ClaudeProvider (apiKey : Nullable string) (baseUrl model : option string)
    (timeout maxRetries : option Z) : Provider :=
  {| family := Claude;
     apiKey := apiKey;
     baseUrl := stripTrailingSlash (defaultTo "https://api.anthropic.com" baseUrl);
     model := defaultTo "claude-3-sonnet-20240229" model;
     timeout := defaultTo 30000 timeout;
     maxRetries := defaultTo 2 maxRetries |}.

Definition LocalProvider (apiKey : Nullable string) (baseUrl : string)
    (model : option string) (timeout maxRetries : option Z) : Provider :=
  {| family := Local;
     apiKey := Defined (if truthyStr apiKey then render apiKey else "");
     baseUrl := stripTrailingSlash baseUrl;
     model := defaultTo "llama2" model;
     timeout := defaultTo 60000 timeout;
     maxRetries := defaultTo 2 maxRetries |}.

Definition message (role content : string) : Value :=
  VObj [("role", VStr role); ("content", VStr content)].

(** The [messages] array of the two chat-completions providers. *)
Definition chatMessages (prompt : string) (systemPrompt : option string) : list Value :=
  (if truthyOpt systemPrompt
   then [message "system" (defaultTo "" systemPrompt)]
   else [])
  ++ [message "user" prompt].

Definition chatBody (this : Provider) (prompt : string) (systemPrompt : option string)
  : Value :=
  VObj [("model", VStr (model this));
        ("messages", VArr (chatMessages prompt systemPrompt));
        ("temperature", VNum (7 # 10));
        ("max_tokens", VNum 2000)].

Definition claudeBody (this : Provider) (prompt : string) (systemPrompt : option string)
  : Value :=
  VObj ([("model", VStr (model this));
         ("max_tokens", VNum 2000);
         ("messages", VArr [message "user" prompt])]
        ++ (if truthyOpt systemPrompt
            then [("system", VStr (defaultTo "" systemPrompt))]
            else [])).

(** The request each [call] hands to [makeRequest]. *)
Definition requestUrl (this : Provider) : string :=
  match family this with
  | OpenAI | Local => baseUrl this ++ "/chat/completions"
  | Claude => baseUrl this ++ "/v1/messages"
  end.

Definition requestBody (this : Provider) (prompt : string) (systemPrompt : option string)
  : Value :=
  match family this with
  | OpenAI | Local => chatBody this prompt systemPrompt
  | Claude => claudeBody this prompt systemPrompt
  end.

Definition requestOptions (this : Provider) : Options :=
  match family this with
  | OpenAI =>
      {| method := "POST";
         headers := [("Content-Type", Defined "application/json");
                     ("Authorization", Defined ("Bearer " ++ render (apiKey this)))] |}
  | Claude =>
      {| method := "POST";
         headers := [("Content-Type", Defined "application/json");
                     ("x-api-key", apiKey this);
                     ("anthropic-version", Defined "2023-06-01")] |}
  | Local =>
      {| method := "POST";
         headers := [("Content-Type", Defined "application/json")]
                    ++ (if truthyStr (apiKey this)
                        then [("Authorization",
                               Defined ("Bearer " ++ render (apiKey this)))]
                        else []) |}
  end.

(** The expression each [call] returns from the response. *)
Definition responseText (f : Family) (response : Value) : Completion Value :=
  match f with
  | OpenAI =>
      (* response.choices[0]?.message?.content || '' *)
      choices <- get response "choices" ;;
      choice <- first choices ;;
      Return (or (getOpt (getOpt choice "message") "content") (VStr ""))
  | Claude =>
      (* response.content[0]?.text || '' *)
      content <- get response "content" ;;
      block <- first content ;;
      Return (or (getOpt block "text") (VStr ""))
  | Local =>
      (* response.choices[0]?.message?.content || response.content || '' *)
      choices <- get response "choices" ;;
      choice <- first choices ;;
      Return (or (or (getOpt (getOpt choice "message") "content")
                     (getOpt response "content"))
                 (VStr ""))
  end.

Definition errorPrefix (f : Family) : string :=
  match f with
  | OpenAI => "OpenAI API error: "
  | Claude => "Claude API error: "
  | Local => "Local AI API error: "
  end.

Section Gateway.

Variable JSON_parse : string -> option Value.

(** [provider.call(prompt, systemPrompt)]: the [try] block awaits
    [makeRequest] and reads the text; whatever is thrown inside it is
    rethrown with the provider's prefix. *)
Definition call (this : Provider) (backend : nat -> Outcome) (prompt : string)
    (systemPrompt : option string) : Run :=
  let request :=
    makeRequest JSON_parse backend (requestUrl this) (requestOptions this)
      (requestBody this prompt systemPrompt) (maxRetries this) (timeout this) in
  {| settled :=
       match settled request with
       | Resolved response =>
           match responseText (family this) response with
           | Return text => Resolved text
           | Throw m => Rejected (errorPrefix (family this) ++ m)
           end
       | Rejected m => Rejected (errorPrefix (family this) ++ m)
       end;
     before := before request;
     after := after request |}.

End Gateway.

(** ** Factory and facade *)

(** The [config] object. A missing property is [None]; [apiKey] may
    also be [null] or empty. *)
Module Config.
Record t : Type := {
  provider : option string;
  apiKey : Nullable string;
  baseUrl : option string;
  model : option string;
  timeout : option Z;
  maxRetries : option Z
}.
End Config.

(** [createAIProvider(config)]: the lines it logs and the provider it
    returns or the error it throws. *)
Definition createAIProvider (config : Config.t) : list LogLine * Completion Provider :=
  let provider := defaultTo "openai" (Config.provider config) in
  let apiKey := Config.apiKey config in
  let baseUrl := Config.baseUrl config in
  let model := Config.model config in
  let timeout := defaultTo 30000 (Config.timeout config) in
  let maxRetries := defaultTo 2 (Config.maxRetries config) in
  if (negb (truthyStr apiKey) && negb (String.eqb provider "local"))%bool then
    ([], Throw ("API key is required for provider: " ++ provider))
  else
    ([Info ("Initializing AI provider: " ++ provider
            ++ " (model: " ++ orElse model "default" ++ ")")],
     let selected := toLowerCase provider in
     if String.eqb selected "openai" then
       Return (OpenAIProvider apiKey
                 (Some (orElse baseUrl "https://api.openai.com/v1"))
                 (Some (orElse model "gpt-3.5-turbo"))
                 (Some timeout) (Some maxRetries))
     else if String.eqb selected "claude" then
       Return (ClaudeProvider apiKey
                 (Some (orElse baseUrl "https://api.anthropic.com"))
                 (Some (orElse model "claude-3-sonnet-20240229"))
                 (Some timeout) (Some maxRetries))
     else if String.eqb selected "local" then
       match baseUrl with
       | Some url =>
           if negb (truthyOpt baseUrl) then
             Throw "baseUrl is required for local provider"
           else
             Return (LocalProvider apiKey url
                       (Some (orElse model "llama2"))
                       (Some (if truthyInt timeout then timeout else 60000))
                       (Some maxRetries))
       | None => Throw "baseUrl is required for local provider"
       end
     else
       Throw ("Unsupported AI provider: " ++ provider
              ++ ". Supported: openai, claude, local")).

Section Facade.

Variable JSON_parse : string -> option Value.

(** [callAI(config, prompt, systemPrompt)]. The lines the facade
    logs when the provider's promise settles close [before]; [after]
    is what the transport still does past that point. *)
Definition callAI (config : Config.t) (backend : nat -> Outcome) (prompt : string)
    (systemPrompt : option string) : Run :=
  match createAIProvider config with
  | (lines, Throw m) =>
      {| settled := Rejected m;
         before := map Log lines ++ [Log (Failure ("AI API call failed: " ++ m))];
         after := [] |}
  | (lines, Return aiProvider) =>
      let calling :=
        Info ("Calling AI API (provider: "
              ++ render (ofOption (Config.provider config))
              ++ ", masked key: " ++ maskApiKey (Config.apiKey config) ++ ")...") in
      let response := call JSON_parse aiProvider backend prompt systemPrompt in
      {| settled := settled response;
         before :=
           map Log lines ++ [Log calling] ++ before response
             ++ [Log match settled response with
                     | Resolved _ => Info "AI API call successful"
                     | Rejected m => Failure ("AI API call failed: " ++ m)
                     end];
         after := after response |}
  end.

End Facade.

(** The HTTP exchanges among a list of events. *)
Fixpoint attempts (events : list Event) : list Exchange :=
  match events with
  | [] => []
  | Attempt e :: rest => e :: attempts rest
  | _ :: rest => attempts rest
  end.

(** The delays slept among a list of events. *)
Fixpoint sleeps (events : list Event) : list Number :=
  match events with
  | [] => []
  | Sleep ms :: rest => ms :: sleeps rest
  | _ :: rest => sleeps rest
  end.

(** ** Sample inputs *)

Module Sample.

(** Stands for [JSON.parse] on the texts the examples use: it agrees
    with it on the four JSON texts listed and on every text that is
    not JSON. *)
Definition parse (text : string) : option Value :=
  if String.eqb text "{}" then Some (VObj [])
  else if String.eqb text "[]" then Some (VArr [])
  else if String.eqb text "null" then Some VNull
  else if String.eqb text "5" then Some (VNum 5)
  else None.

Definition openai : Config.t :=
  {| Config.provider := Some "openai";
     Config.apiKey := Defined "sk-abcdef123456";
     Config.baseUrl := None;
     Config.model := None;
     Config.timeout := None;
     Config.maxRetries := None |}.

(** A self-hosted endpoint, no key, nothing else configured. *)
Definition ollama : Config.t :=
  {| Config.provider := Some "local";
     Config.apiKey := Undefined;
     Config.baseUrl := Some "http://localhost:11434/v1";
     Config.model := None;
     Config.timeout := None;
     Config.maxRetries := None |}.

Definition localNoUrl : Config.t :=
  {| Config.provider := Some "local";
     Config.apiKey := Undefined;
     Config.baseUrl := None;
     Config.model := None;
     Config.timeout := None;
     Config.maxRetries := None |}.

Definition openaiProvider : Provider :=
  OpenAIProvider (Defined "sk-abcdef123456") None None None None.

Definition claudeProvider : Provider :=
  ClaudeProvider (Defined "sk-ant-0123456789") None None None None.

(** An OpenAI provider configured with seven retries. *)
Definition patient : Provider :=
  OpenAIProvider (Defined "sk-abcdef123456") None None None (Some 7).

Definition chatUrl : string := "https://api.openai.com/v1/chat/completions".

Definition post : Options := {| method := "POST"; headers := [] |}.

Definition always (o : Outcome) : nat -> Outcome := fun _ => o.

Definition notFound : Outcome := Responded 404 "Not Found" None "no such model".

Definition serverDown : Outcome :=
  Responded 500 "Internal Server Error" None "overloaded".

(** One 429 with [Retry-After: 5], then 200 with an empty object. *)
Definition limitedOnce (k : nat) : Outcome :=
  match k with
  | O => Responded 429 "Too Many Requests" (Some "5") ""
  | _ => Responded 200 "OK" None "{}"
  end.

End Sample.

(** ** Callers: reading the AI response *)

(** The string operations [ai-result-analyzer.js] applies to the text
    that [callAI] returns. *)
Module Text.

(** The suffix of [text] from index [k]. *)
Fixpoint drop (k : nat) (text : string) : string :=
  match k, text with
  | O, _ => text
  | S k', String _ rest => drop k' rest
  | S _, EmptyString => EmptyString
  end.

(** The first index at or after [at_] where [search] occurs, [text]
    being the suffix that starts at [at_]; [-1] when there is none. *)
Fixpoint scan (search text : string) (at_ : Z) : Z :=
  if String.prefix search text then at_
  else match text with
       | EmptyString => -1
       | String _ rest => scan search rest (at_ + 1)
       end.

(** [text.indexOf(search, from)]. *)
Definition indexOf (text search : string) (from : Z) : Z :=
  let k := clamp (Z.of_nat (String.length text)) from in
  scan search (drop (Z.to_nat k) text) k.

(** The last index at or before [k] where [search] occurs in [text];
    [-1] when there is none. *)
Fixpoint scanBack (search text : string) (k : nat) : Z :=
  if String.prefix search (drop k text) then Z.of_nat k
  else match k with
       | O => -1
       | S k' => scanBack search text k'
       end.

(** [text.lastIndexOf(search, from)]. *)
Definition lastIndexOf (text search : string) (from : Z) : Z :=
  let start :=
    Z.min (Z.max from 0)
      (Z.of_nat (String.length text) - Z.of_nat (String.length search)) in
  if start <? 0 then -1 else scanBack search text (Z.to_nat start).

Fixpoint trimEnd (s : string) : string :=
  match s with
  | EmptyString => EmptyString
  | String c rest =>
      match trimEnd rest with
      | EmptyString => if isWhite c then EmptyString else String c EmptyString
      | kept => String c kept
      end
  end.

(** [s.trim()]. *)
Definition trim (s : string) : string := trimEnd (trimStart s).

Definition newline : ascii := ascii_of_nat 10.

(** [s.split('\n')]. *)
Fixpoint lines (s : string) : list string :=
  match s with
  | EmptyString => [EmptyString]
  | String c rest =>
      if Ascii.eqb c newline then EmptyString :: lines rest
      else match lines rest with
           | line :: more => String c line :: more
           | [] => [String c EmptyString]
           end
  end.

(** [parts.join('\n')]. *)
Fixpoint join (parts : list string) : string :=
  match parts with
  | [] => EmptyString
  | [part] => part
  | part :: more => part ++ String newline (join more)
  end.

End Text.

(** [extractSection(text, startHeader, endHeader)]; [None] is [null],
    as a result and as the [endHeader] of the last section. *)
Definition extractSection (text startHeader : string) (endHeader : option string)
  : option string :=
  let startIndex := Text.indexOf text startHeader 0 in
  if startIndex =? -1 then None
  else
    let start := Text.indexOf text (String Text.newline "") startIndex + 1 in
    let end_ :=
      match endHeader with
      | Some header =>
          if truthyOpt endHeader then
            let endIndex := Text.indexOf text header start in
            if negb (endIndex =? -1)
            then Text.lastIndexOf text (String Text.newline "") endIndex
            else Z.of_nat (String.length text)
          else Z.of_nat (String.length text)
      | None => Z.of_nat (String.length text)
      end in
    Some (Text.trim (substring text start (Some end_))).

Record Sections : Type := {
  performanceAssessment : option string;
  anomalies : option string;
  bottlenecks : option string;
  thresholdAnalysis : option string;
  rootCause : option string;
  recommendations : option string;
  riskAssessment : option string
}.

Record Insights : Type := {
  raw : string;
  sections : Sections;
  summary : string
}.

(** [parseAIResponse(response)], for a response that is a string. *)
Definition parseAIResponse (response : string) : Insights :=
  {| raw := response;
     sections :=
       {| performanceAssessment :=
            extractSection response "Performance Assessment" (Some "Anomalies Detection");
          anomalies :=
            extractSection response "Anomalies Detection" (Some "Bottleneck Identification");
          bottlenecks :=
            extractSection response "Bottleneck Identification" (Some "Threshold Analysis");
          thresholdAnalysis :=
            extractSection response "Threshold Analysis" (Some "Root Cause Analysis");
          rootCause :=
            extractSection response "Root Cause Analysis"
              (Some "Optimization Recommendations");
          recommendations :=
            extractSection response "Optimization Recommendations" (Some "Risk Assessment");
          riskAssessment := extractSection response "Risk Assessment" None |};
     summary := Text.join (firstn 5 (Text.lines response)) |}.

(** ** Callers: the YAML block of the answer *)

(** The fragment of JavaScript regular expressions that
    [ai-profile-generator.js] uses, matched by backtracking as the
    language defines it: alternatives are tried in order, a greedy
    quantifier takes as much as it can before giving back, a lazy one as
    little as it can before taking more, and the continuation [k] is what
    remains of the pattern. *)
Module Regex.

Inductive t : Type :=
| Lit (s : string)
| Opt (r : t)
| Star (class : ascii -> bool)
| LazyStar (class : ascii -> bool)
| Group (r : t)
| Seq (first second : t).

Section Matching.

Variable A : Type.

(** [[class]*] *)
Fixpoint star (class : ascii -> bool) (input : string) (k : string -> option A)
  : option A :=
  match input with
  | String c rest =>
      if class c
      then match star class rest k with
           | Some a => Some a
           | None => k input
           end
      else k input
  | EmptyString => k input
  end.

(** [[class]*?] *)
Fixpoint lazyStar (class : ascii -> bool) (input : string) (k : string -> option A)
  : option A :=
  match k input with
  | Some a => Some a
  | None =>
      match input with
      | String c rest => if class c then lazyStar class rest k else None
      | EmptyString => None
      end
  end.

(** Matches [r] at the start of [input]; [group] is the text of the
    capturing group so far. *)
Fixpoint run (r : t) (input : string) (group : option string)
    (k : string -> option string -> option A) : option A :=
  match r with
  | Lit s =>
      if String.prefix s input then k (Text.drop (String.length s) input) group else None
  | Opt r' =>
      match run r' input group k with
      | Some a => Some a
      | None => k input group
      end
  | Star class => star class input (fun rest => k rest group)
  | LazyStar class => lazyStar class input (fun rest => k rest group)
  | Group r' =>
      run r' input group
        (fun rest _ =>
           k rest (Some (String.substring 0 (String.length input - String.length rest)
                           input)))
  | Seq first second =>
      run first input group (fun rest group' => run second rest group' k)
  end.

End Matching.

(** [input.match(r)] for a pattern without the [g] flag: the leftmost
    match; the result is its group 1. *)
Fixpoint search (r : t) (input : string) : option (option string) :=
  match run (option string) r input None (fun _ group => Some group) with
  | Some group => Some group
  | None =>
      match input with
      | String _ rest => search r rest
      | EmptyString => None
      end
  end.

(** [[\s\S]] *)
Definition anyChar (c : ascii) : bool := true.

End Regex.

(** The pattern of [extractYAML]: three backticks, an optional
    [yaml], white space, a line break, the lazily captured block, a
    line break and three backticks. *)
Definition yamlBlockRegex : Regex.t :=
  Regex.Seq (Regex.Lit "```")
    (Regex.Seq (Regex.Opt (Regex.Lit "yaml"))
       (Regex.Seq (Regex.Star isWhite)
          (Regex.Seq (Regex.Lit (String Text.newline ""))
             (Regex.Seq (Regex.Group (Regex.LazyStar Regex.anyChar))
                (Regex.Lit (String Text.newline "```")))))).

(** [extractYAML(response)], for a response that is a string. *)
Definition extractYAML (response : string) : string :=
  let trimmed := Text.trim response in
  let yamlContent :=
    match Regex.search yamlBlockRegex trimmed with
    | Some (Some block) => block
    | _ => trimmed
    end in
  let yamlStart := Text.indexOf yamlContent "profiles:" 0 in
  Text.trim (if yamlStart >? 0
             then substring yamlContent yamlStart None
             else yamlContent).

(** ** Notions used to state the properties *)

(** An outcome after which [makeRequest] tries again when retries are
    left: a 429, a status of 500 or more, or a request error. *)
Definition retryable (o : Outcome) : bool :=
  match o with
  | Responded statusCode _ _ _ =>
      (negb ((200 <=? statusCode) && (statusCode <? 300))
       && ((statusCode =? 429) || (500 <=? statusCode)))%bool
  | Errored _ => true
  | TimerFired _ => false
  | Threw _ => false
  end.

(** The delays of the exponential formula from [n] retries remaining
    down to one. *)
Fixpoint backoffs (n : nat) : list Number :=
  match n with
  | O => []
  | S n' => backoffDelay (Z.of_nat n) :: backoffs n'
  end.

(** The sum of a list of delays, all of them numbers. *)
Fixpoint totalDelay (delays : list Number) : option Q :=
  match delays with
  | [] => Some 0%Q
  | Num q :: rest => option_map (Qplus q) (totalDelay rest)
  | _ :: _ => None
  end.

(** The delay a retry line announces. *)
Definition delayOf (line : LogLine) : option Number :=
  match line with
  | RateLimitedLine delay | ServerErrorLine _ delay | RequestErrorLine _ delay =>
      Some delay
  | Info _ | Failure _ => None
  end.

(** A history in which every exchange sends [e] and is followed by the
    line that announces a delay and by the sleep of that very delay,
    until the history closes with [ending]. *)
Inductive Paced (e : Exchange) (ending : list Event) : list Event -> Prop :=
| Paced_end : Paced e ending ending
| Paced_retry (line : LogLine) (delay : Number) (rest : list Event) :
    delayOf line = Some delay ->
    Paced e ending rest ->
    Paced e ending (Attempt e :: Log line :: Sleep delay :: rest).

(** [s] ends with a slash. *)
Definition endsWithSlash (s : string) : Prop := exists t, s = t ++ "/".

(** [search] occurs in [text]. *)
Definition occursIn (search text : string) : Prop :=
  exists pre post, text = pre ++ search ++ post.

(** More sample inputs. *)
Module Scenario.

Definition noKey : Config.t :=
  {| Config.provider := None;
     Config.apiKey := Undefined;
     Config.baseUrl := None;
     Config.model := None;
     Config.timeout := None;
     Config.maxRetries := None |}.

Definition gemini : Config.t :=
  {| Config.provider := Some "gemini";
     Config.apiKey := Defined "AIza-0123456789";
     Config.baseUrl := None;
     Config.model := None;
     Config.timeout := None;
     Config.maxRetries := None |}.

(** [provider: "Local"], capitalised, without a key. *)
Definition capitalLocal : Config.t :=
  {| Config.provider := Some "Local";
     Config.apiKey := Undefined;
     Config.baseUrl := Some "http://localhost:11434/v1";
     Config.model := None;
     Config.timeout := None;
     Config.maxRetries := None |}.

(** [provider: "Claude"], capitalised, with everything set. *)
Definition tuned : Config.t :=
  {| Config.provider := Some "Claude";
     Config.apiKey := Defined "sk-ant-0123456789";
     Config.baseUrl := Some "https://proxy.example.com/anthropic/";
     Config.model := Some "claude-3-opus-20240229";
     Config.timeout := Some 45000;
     Config.maxRetries := Some 0 |}.

(** Explicit [timeout: 0]. *)
Definition zeroTimeout (name : string) : Config.t :=
  {| Config.provider := Some name;
     Config.apiKey := Defined "sk-abcdef123456";
     Config.baseUrl := Some "http://localhost:11434/v1";
     Config.model := None;
     Config.timeout := Some 0;
     Config.maxRetries := None |}.

Definition localProvider : Provider :=
  LocalProvider Undefined "http://localhost:11434/v1/" None None None.

Definition keyedLocal : Provider :=
  LocalProvider (Defined "pplx-0123456789") "https://api.perplexity.ai" None None None.

Definition refused (k : nat) : Outcome := Errored "connect ECONNREFUSED".

(** [protocol.request] throws on every call, as it does for a URL
    without a scheme. *)
Definition invalidUrl (k : nat) : Outcome := Threw "Invalid URL".

(** Two failures, then a 200 whose body is not JSON. *)
Definition flaky (k : nat) : Outcome :=
  match k with
  | O => Errored "socket hang up"
  | S O => Responded 503 "Service Unavailable" None "busy"
  | _ => Responded 200 "OK" None "pong"
  end.

Definition limitedByDate (k : nat) : Outcome :=
  Responded 429 "Too Many Requests" (Some "Wed, 21 Oct 2015 07:28:00 GMT") "".

Definition limited (k : nat) : Outcome :=
  Responded 429 "Too Many Requests" (Some "5") "".

Definition htmlPage (k : nat) : Outcome :=
  Responded 200 "OK" None "<html>maintenance</html>".

Definition completion : Value :=
  VObj [("id", VStr "chatcmpl-1");
        ("choices",
         VArr [VObj [("index", VNum 0);
                     ("message", VObj [("role", VStr "assistant");
                                       ("content", VStr "hello")])]])].

Definition fenced : string :=
  "Here is the profile:" ++ String Text.newline
    ("```yaml" ++ String Text.newline
       ("profiles:" ++ String Text.newline
          ("  smoke: {}" ++ String Text.newline
             ("```" ++ String Text.newline "Good luck!")))).

Definition chatty : string :=
  "Sure! profiles:" ++ String Text.newline ("  smoke: {}" ++ String Text.newline "Bye").

Definition report : string :=
  "## Performance Assessment" ++ String Text.newline
    ("Healthy overall." ++ String Text.newline
       ("## Anomalies Detection" ++ String Text.newline "None.")).

End Scenario.

(** * Properties *)

(** ** The model on concrete inputs *)

Example maskApiKey_examples :
  (maskApiKey (Defined "sk-abcdef123456"), maskApiKey (Defined "123456789"),
   maskApiKey (Defined "12345678"))
  = ("sk-a***3456", "1234***6789", "***").
Proof. reflexivity. Qed.

Example parseInt_examples :
  (parseInt "5", parseInt " 12s", parseInt "-7", parseInt "", parseInt "Wed, 21 Oct",
   parseInt "9007199254740992", parseInt "9007199254740993")
  = (Num 5, Num 12, Num (-7), NaN, NaN, Num 9007199254740992, Beyond).
Proof. reflexivity. Qed.

Example renderInt_examples : (renderInt 500, renderInt 0, renderInt (-3)) = ("500", "0", "-3").
Proof. reflexivity. Qed.

Example stripTrailingSlash_examples :
  (stripTrailingSlash "http://localhost:11434/v1/", stripTrailingSlash "a//",
   stripTrailingSlash "/", toLowerCase "OpenAI")
  = ("http://localhost:11434/v1", "a/", "", "openai").
Proof. reflexivity. Qed.

Example backoffDelay_examples :
  (backoffDelay 2, backoffDelay 1, backoffDelay 3, backoffDelay 6, backoffDelay 1077)
  = (Num 1000, Num 2000, Num 500, Num (125 # 2), Num 0).
Proof. reflexivity. Qed.

Example rateLimitDelay_examples :
  (rateLimitDelay (Num 5) 2, rateLimitDelay (Num 5) 1, rateLimitDelay (Num 5) 4,
   rateLimitDelay NaN 2, rateLimitDelay (Num 9007199254740992) 2)
  = (Num 5000, Num 10000, Num (-5000), NaN, Beyond).
Proof. reflexivity. Qed.

Example makeRequest_refused :
  makeRequest Sample.parse Scenario.invalidUrl "api.openai.com/v1/chat/completions"
    Sample.post (VObj []) 2 30000
  = {| settled := Rejected "Invalid URL";
       before := [];
       after := [Uncaught "Cannot access 'req' before initialization"] |}.
Proof. reflexivity. Qed.

Example responseText_examples :
  (responseText OpenAI
     (VObj [("choices", VArr [VObj [("message", VObj [("content", VStr "hello")])]])]),
   responseText Claude (VObj [("content", VArr [VObj [("text", VStr "hi")]])]),
   responseText Local (VObj [("choices", VArr []); ("content", VStr "plain")]))
  = (Return (VStr "hello"), Return (VStr "hi"), Return (VStr "plain")).
Proof. reflexivity. Qed.

Example makeRequest_network_errors :
  makeRequest Sample.parse (Sample.always (Errored "ECONNREFUSED")) Sample.chatUrl
    Sample.post (VObj []) 1 30000
  = {| settled := Rejected "ECONNREFUSED";
       before := [Attempt (exchange Sample.chatUrl Sample.post (VObj []));
                  Log (RequestErrorLine "ECONNREFUSED" (Num 2000));
                  Sleep (Num 2000);
                  Attempt (exchange Sample.chatUrl Sample.post (VObj []))];
       after := [] |}.
Proof. reflexivity. Qed.

Example createAIProvider_openai :
  createAIProvider Sample.openai
  = ([Info "Initializing AI provider: openai (model: default)"],
     Return {| family := OpenAI;
               apiKey := Defined "sk-abcdef123456";
               baseUrl := "https://api.openai.com/v1";
               model := "gpt-3.5-turbo";
               timeout := 30000;
               maxRetries := 2 |}).
Proof. reflexivity. Qed.

(** ** One step of the transport *)

Section TransportLemmas.

Variable JSON_parse : string -> option Value.
Variables (url : string) (options : Options) (body : Value) (timeout : Z).

Let send backend retries :=
  makeRequest JSON_parse backend url options body retries timeout.
Let attempt := Attempt (exchange url options body).

Lemma makeRequest_success backend retries statusCode statusMessage hint data :
  backend 0%nat = Responded statusCode statusMessage hint data ->
  200 <= statusCode < 300 ->
  send backend retries =
    {| settled := Resolved match JSON_parse data with
                           | Some v => v
                           | None => VStr data
                           end;
       before := [attempt];
       after := [] |}.
Proof.
  intros Hout Hrange. unfold send. rewrite makeRequest_equation_1, Hout. cbv zeta.
  replace ((200 <=? statusCode) && (statusCode <? 300))%bool with true by lia.
  reflexivity.
Qed.

Lemma makeRequest_rate_limited backend retries statusMessage hint data :
  backend 0%nat = Responded 429 statusMessage hint data ->
  retries > 0 ->
  send backend retries =
    let delay := rateLimitDelay (parseInt (orElse hint "5")) retries in
    followedBy [attempt; Log (RateLimitedLine delay); Sleep delay]
      (send (fun k => backend (S k)) (retries - 1)).
Proof.
  intros Hout Hpos. unfold send. rewrite makeRequest_equation_1, Hout. cbv zeta.
  change ((200 <=? 429) && (429 <? 300))%bool with false. cbv iota.
  change (429 =? 429) with true. cbv iota.
  destruct (Z_gt_dec retries 0) as [_ | Hno]; [reflexivity | contradiction].
Qed.

Lemma makeRequest_server_error backend retries statusCode statusMessage hint data :
  backend 0%nat = Responded statusCode statusMessage hint data ->
  500 <= statusCode ->
  retries > 0 ->
  send backend retries =
    let delay := backoffDelay retries in
    followedBy [attempt; Log (ServerErrorLine statusCode delay); Sleep delay]
      (send (fun k => backend (S k)) (retries - 1)).
Proof.
  intros Hout Hrange Hpos. unfold send. rewrite makeRequest_equation_1, Hout. cbv zeta.
  replace ((200 <=? statusCode) && (statusCode <? 300))%bool with false by lia.
  replace (statusCode =? 429) with false by lia.
  replace (500 <=? statusCode) with true by lia.
  destruct (Z_gt_dec retries 0) as [_ | Hno]; [reflexivity | contradiction].
Qed.

Lemma makeRequest_failed backend retries statusCode statusMessage hint data :
  backend 0%nat = Responded statusCode statusMessage hint data ->
  ~ 200 <= statusCode < 300 ->
  (statusCode <> 429 /\ statusCode < 500) \/ retries <= 0 ->
  send backend retries =
    {| settled := Rejected (failureMessage statusCode statusMessage data);
       before := [attempt];
       after := [] |}.
Proof.
  intros Hout Hrange Hcase. unfold send. rewrite makeRequest_equation_1, Hout. cbv zeta.
  replace ((200 <=? statusCode) && (statusCode <? 300))%bool with false by lia.
  destruct (Z_gt_dec retries 0) as [Hpos | Hno];
    destruct (statusCode =? 429) eqn:H429;
    destruct (500 <=? statusCode) eqn:H500; try reflexivity; lia.
Qed.

Lemma makeRequest_errored backend retries message :
  backend 0%nat = Errored message ->
  retries > 0 ->
  send backend retries =
    let delay := backoffDelay retries in
    followedBy [attempt; Log (RequestErrorLine message delay); Sleep delay]
      (send (fun k => backend (S k)) (retries - 1)).
Proof.
  intros Hout Hpos. unfold send. rewrite makeRequest_equation_1, Hout. cbv zeta.
  destruct (Z_gt_dec retries 0) as [_ | Hno]; [reflexivity | contradiction].
Qed.

Lemma makeRequest_errored_last backend retries message :
  backend 0%nat = Errored message ->
  retries <= 0 ->
  send backend retries =
    {| settled := Rejected message; before := [attempt]; after := [] |}.
Proof.
  intros Hout Hpos. unfold send. rewrite makeRequest_equation_1, Hout. cbv zeta.
  destruct (Z_gt_dec retries 0) as [Hgt | _]; [lia | reflexivity].
Qed.

(** When the timer fires the promise is rejected on the spot,
    whatever [retries] is. *)
Lemma makeRequest_timer_fired backend retries destroyError :
  backend 0%nat = TimerFired destroyError ->
  settled (send backend retries) = Rejected (timeoutMessage timeout)
  /\ before (send backend retries) = [attempt].
Proof.
  intros Hout. unfold send. rewrite makeRequest_equation_1, Hout. cbv zeta.
  split; reflexivity.
Qed.

(** When [protocol.request] throws, the promise is rejected with its
    exception and nothing is sent; the timer is left behind. *)
Lemma makeRequest_threw backend retries message :
  backend 0%nat = Threw message ->
  send backend retries =
    {| settled := Rejected message;
       before := [];
       after := [Uncaught uninitialised] |}.
Proof.
  intros Hout. unfold send. rewrite makeRequest_equation_1, Hout. reflexivity.
Qed.

(** Unless [protocol.request] throws, the first exchange is made at
    once. *)
Lemma makeRequest_first_attempt backend retries :
  (forall message, backend 0%nat <> Threw message) ->
  exists rest, before (send backend retries) = attempt :: rest.
Proof.
  intros Hsent. unfold send. rewrite makeRequest_equation_1. cbv zeta.
  destruct (backend 0%nat)
    as [statusCode statusMessage hint data | message | destroyError | message].
  - destruct ((200 <=? statusCode) && (statusCode <? 300))%bool;
      [eexists; reflexivity |].
    destruct (statusCode =? 429), (Z_gt_dec retries 0), (500 <=? statusCode);
      eexists; reflexivity.
  - destruct (Z_gt_dec retries 0); eexists; reflexivity.
  - eexists; reflexivity.
  - destruct (Hsent message eq_refl).
Qed.

(** Every exchange of one call, before or after its promise settles,
    sends the same request. *)
Lemma makeRequest_attempts backend retries :
  Forall (eq (exchange url options body))
    (attempts (before (send backend retries) ++ after (send backend retries))).
Proof.
  remember (Z.to_nat retries) as n eqn:Hn.
  revert backend retries Hn.
  induction n as [n IH] using lt_wf_ind. intros backend retries Hn.
  assert (Hrec : retries > 0 ->
            Forall (eq (exchange url options body))
              (attempts (before (send (fun k => backend (S k)) (retries - 1))
                         ++ after (send (fun k => backend (S k)) (retries - 1))))).
  { intros Hpos. apply (IH (Z.to_nat (retries - 1))); [lia | reflexivity]. }
  unfold send in *. rewrite makeRequest_equation_1. cbv zeta.
  destruct (backend 0%nat)
    as [statusCode statusMessage hint data | message | destroyError | message].
  - destruct ((200 <=? statusCode) && (statusCode <? 300))%bool.
    { repeat constructor. }
    assert (Hretry : forall events,
              attempts events = [] ->
              retries > 0 ->
              let r := followedBy (attempt :: events)
                         (makeRequest JSON_parse (fun k => backend (S k)) url options
                            body (retries - 1) timeout) in
              Forall (eq (exchange url options body))
                (attempts (before r ++ after r))).
    { intros events Hnone Hpos. pose proof (Hrec Hpos) as Hall. cbn.
      rewrite <- app_assoc.
      assert (Hskip : forall l, attempts (events ++ l) = attempts l).
      { intros l. induction events as [| [e | ms | line | thrown] events IHe]; cbn in *;
          try discriminate; auto. }
      rewrite Hskip. constructor; [reflexivity | exact Hall]. }
    assert (Hfail :
              let r := {| settled := Rejected (failureMessage statusCode statusMessage data);
                          before := [attempt]; after := [] |} in
              Forall (eq (exchange url options body))
                (attempts (before r ++ after r))).
    { repeat constructor. }
    destruct (statusCode =? 429), (Z_gt_dec retries 0) as [Hpos | Hno],
      (500 <=? statusCode);
      first [ exact Hfail | apply Hretry; [reflexivity | exact Hpos] ].
  - destruct (Z_gt_dec retries 0) as [Hpos | Hno].
    + pose proof (Hrec Hpos) as Hall. cbn.
      constructor; [reflexivity | exact Hall].
    + repeat constructor.
  - cbn. constructor; [reflexivity |].
    destruct destroyError as [message |]; [| constructor].
    destruct (Z_gt_dec retries 0) as [Hpos | Hno]; [| constructor].
    exact (Hrec Hpos).
  - constructor.
Qed.

End TransportLemmas.

(** ** Key redaction *)

Lemma substring_first4 (key : string) :
  (8 < String.length key)%nat ->
  substring key 0 (Some 4) = String.substring 0 4 key.
Proof.
  intros Hlen. unfold substring, clamp.
  replace (Z.min (Z.max 0 (Z.min 0 (Z.of_nat (String.length key))))
             (Z.max 0 (Z.min 4 (Z.of_nat (String.length key))))) with 0 by lia.
  replace (Z.max (Z.max 0 (Z.min 0 (Z.of_nat (String.length key))))
             (Z.max 0 (Z.min 4 (Z.of_nat (String.length key))))) with 4 by lia.
  reflexivity.
Qed.

Lemma substring_last4 (key : string) :
  (8 < String.length key)%nat ->
  substring key (Z.of_nat (String.length key) - 4) None
  = String.substring (String.length key - 4) 4 key.
Proof.
  intros Hlen. unfold substring, clamp.
  set (len := Z.of_nat (String.length key)).
  assert (Hlen' : 8 < len) by (unfold len; lia).
  replace (Z.min (Z.max 0 (Z.min (len - 4) len)) len) with (len - 4) by lia.
  replace (Z.max (Z.max 0 (Z.min (len - 4) len)) len) with len by lia.
  replace (Z.to_nat (len - 4)) with (String.length key - 4)%nat by (unfold len; lia).
  replace (len - (len - 4)) with 4 by lia.
  reflexivity.
Qed.

Lemma maskApiKey_long (key : string) :
  (8 < String.length key)%nat ->
  maskApiKey (Defined key)
  = String.substring 0 4 key ++ "***"
      ++ String.substring (String.length key - 4) 4 key.
Proof.
  intros Hlen. unfold maskApiKey.
  rewrite (substring_first4 key Hlen), (substring_last4 key Hlen).
  replace (Z.of_nat (String.length key) <=? 8) with false by lia.
  destruct key as [| c key]; [cbn in Hlen; lia | reflexivity].
Qed.

Lemma substring_length (s : string) (n m : nat) :
  (n + m <= String.length s)%nat -> String.length (String.substring n m s) = m.
Proof.
  revert n m. induction s as [| c s IH]; intros n m Hfit.
  - cbn in Hfit. destruct n, m; try lia; reflexivity.
  - destruct n as [| n].
    + destruct m as [| m]; [reflexivity |].
      cbn. f_equal. apply IH. cbn in Hfit. lia.
    + cbn. apply IH. cbn in Hfit. lia.
Qed.

(** C2. A key of at most 8 characters is rendered as [***]. A longer
    key is rendered as its first 4 characters, [***], and its last 4
    characters; nothing else of the key reaches the output: two long
    keys that agree on their first 4 and last 4 characters are rendered
    alike, whatever lies between. *)
Theorem maskApiKey_redacts (key : string) :
  ((String.length key <= 8)%nat -> maskApiKey (Defined key) = "***")
  /\ ((8 < String.length key)%nat ->
      maskApiKey (Defined key)
      = String.substring 0 4 key ++ "***"
          ++ String.substring (String.length key - 4) 4 key
      /\ String.length (String.substring 0 4 key) = 4%nat
      /\ String.length (String.substring (String.length key - 4) 4 key) = 4%nat
      /\ forall other : string,
           (8 < String.length other)%nat ->
           String.substring 0 4 other = String.substring 0 4 key ->
           String.substring (String.length other - 4) 4 other
           = String.substring (String.length key - 4) 4 key ->
           maskApiKey (Defined other) = maskApiKey (Defined key)).
Proof.
  split.
  - intros Hlen. unfold maskApiKey.
    replace (Z.of_nat (String.length key) <=? 8) with true by lia.
    rewrite orb_true_r. reflexivity.
  - intros Hlen. split; [exact (maskApiKey_long key Hlen) |].
    split; [apply substring_length; lia |].
    split; [apply substring_length; lia |].
    intros other Hother Hfirst Hlast.
    rewrite (maskApiKey_long key Hlen), (maskApiKey_long other Hother).
    rewrite Hfirst, Hlast. reflexivity.
Qed.

Lemma maskApiKey_redacts_witness :
  maskApiKey (Defined "12345678") = "***"
  /\ maskApiKey (Defined "sk-abcdef123456") = "sk-a***3456"
  /\ maskApiKey (Defined "sk-a-another-secret-3456")
     = maskApiKey (Defined "sk-abcdef123456").
Proof.
  assert (Hlong : (8 < String.length "sk-abcdef123456")%nat) by (cbn; lia).
  destruct (proj2 (maskApiKey_redacts "sk-abcdef123456") Hlong)
    as (Hshape & _ & _ & Hsame).
  split; [| split].
  - apply (proj1 (maskApiKey_redacts "12345678")). cbn. lia.
  - exact Hshape.
  - apply Hsame; [cbn; lia | reflexivity | reflexivity].
Defined.

(** C10. A key that is missing ([undefined]), [null] or empty is
    rendered as [***]; so the facade's line with the masked key is
    written also when a local provider is configured without a key. *)
Theorem maskApiKey_missing (JSON_parse : string -> option Value) :
  maskApiKey Undefined = "***"
  /\ maskApiKey Null = "***"
  /\ maskApiKey (Defined "") = "***"
  /\ forall (config : Config.t) (backend : nat -> Outcome) (prompt : string)
            (systemPrompt : option string),
       Config.provider config = Some "local" ->
       truthyOpt (Config.baseUrl config) = true ->
       truthyStr (Config.apiKey config) = false ->
       In (Log (Info "Calling AI API (provider: local, masked key: ***)..."))
          (before (callAI JSON_parse config backend prompt systemPrompt)).
Proof.
  repeat split.
  intros config backend prompt systemPrompt Hprovider Hurl Hkey.
  assert (Hmask : maskApiKey (Config.apiKey config) = "***").
  { destruct (Config.apiKey config) as [| | key]; try reflexivity.
    destruct key; [reflexivity | discriminate Hkey]. }
  unfold callAI, createAIProvider. rewrite Hprovider, Hkey. cbn.
  destruct (Config.baseUrl config) as [address |]; [| discriminate Hurl].
  rewrite Hurl. cbn. rewrite Hmask. right. left. reflexivity.
Qed.

Lemma maskApiKey_missing_witness :
  In (Log (Info "Calling AI API (provider: local, masked key: ***)..."))
     (before (callAI Sample.parse Sample.ollama
                (Sample.always (Responded 200 "OK" None "{}")) "hello" None)).
Proof.
  apply (proj2 (proj2 (proj2 (maskApiKey_missing Sample.parse)))); reflexivity.
Defined.

(** ** Retries *)

(** Up to 1076 retries remaining the delay is the value of the
    exponential formula; from 1077 on the power of two underflows and
    the delay is 0. *)
Lemma backoffDelay_formula (retries : Z) :
  -1012 <= retries <= 1076 ->
  exists q : Q, backoffDelay retries = Num q /\ (q == 1000 * Qpower 2 (2 - retries))%Q.
Proof.
  intros Hrange. unfold backoffDelay. cbv zeta.
  replace (2 - retries <? -1074) with false by lia.
  replace (1014 <? 2 - retries) with false by lia.
  eexists. split; [reflexivity | apply Qred_correct].
Qed.

Lemma backoffDelay_underflow (retries : Z) :
  1077 <= retries -> backoffDelay retries = Num 0.
Proof.
  intros Hrange. unfold backoffDelay. cbv zeta.
  replace (2 - retries <? -1074) with true by lia. reflexivity.
Qed.

(** C5. A 4xx status other than 429 is never retried, whatever the
    retry budget: the transport makes one exchange and rejects with the
    status code and the response body in the message; so does every
    provider, under its own prefix and for every [maxRetries]. *)
Theorem client_error_not_retried (JSON_parse : string -> option Value)
    (backend : nat -> Outcome) (statusCode : Z) (statusMessage : string)
    (hint : option string) (data : string) :
  backend 0%nat = Responded statusCode statusMessage hint data ->
  400 <= statusCode < 500 ->
  statusCode <> 429 ->
  let failure :=
    "API request failed: " ++ renderInt statusCode ++ " " ++ statusMessage
      ++ String (ascii_of_nat 10) data in
  (forall url options body retries timeout,
     makeRequest JSON_parse backend url options body retries timeout
     = {| settled := Rejected failure;
          before := [Attempt (exchange url options body)];
          after := [] |})
  /\ (forall this prompt systemPrompt,
        let r := call JSON_parse this backend prompt systemPrompt in
        settled r = Rejected (errorPrefix (family this) ++ failure)
        /\ List.length (attempts (before r ++ after r)) = 1%nat
        /\ sleeps (before r ++ after r) = []).
Proof.
  intros Hout Hrange Hnot failure.
  assert (Hone : forall url options body retries timeout,
             makeRequest JSON_parse backend url options body retries timeout
             = {| settled := Rejected failure;
                  before := [Attempt (exchange url options body)];
                  after := [] |}).
  { intros. apply (makeRequest_failed _ _ _ _ _ _ _ _ _ _ _ Hout); lia. }
  split; [exact Hone |].
  intros this prompt systemPrompt. unfold call. rewrite Hone. cbn.
  repeat split.
Qed.

Lemma client_error_not_retried_witness :
  settled (call Sample.parse Sample.patient (Sample.always Sample.notFound) "hello" None)
  = Rejected ("OpenAI API error: API request failed: 404 Not Found"
                ++ String (ascii_of_nat 10) "no such model")
  /\ List.length
       (attempts
          (before (call Sample.parse Sample.patient (Sample.always Sample.notFound)
                     "hello" None)
           ++ after (call Sample.parse Sample.patient (Sample.always Sample.notFound)
                       "hello" None))) = 1%nat.
Proof.
  destruct (proj2 (client_error_not_retried Sample.parse
                     (Sample.always Sample.notFound)
                     404 "Not Found" None "no such model"
                     eq_refl ltac:(lia) ltac:(lia))
              Sample.patient "hello" None) as [Hsettled [Hcount _]].
  split; assumption.
Defined.

(** C3. With [maxRetries = 2] and a backend that answers 500 to every
    attempt there are exactly three exchanges, the second after 1000 ms
    and the third after 2000 ms (the delays of the formula at 2 and at 1
    retries remaining), and the call fails with the last response's
    status 500 in the message. *)
Theorem server_error_exhausts_retries (JSON_parse : string -> option Value)
    (this : Provider) (backend : nat -> Outcome) (prompt : string)
    (systemPrompt : option string) :
  maxRetries this = 2 ->
  (forall k : nat, exists statusMessage hint data,
      backend k = Responded 500 statusMessage hint data) ->
  let sent :=
    Attempt (exchange (requestUrl this) (requestOptions this)
               (requestBody this prompt systemPrompt)) in
  let r := call JSON_parse this backend prompt systemPrompt in
  exists statusMessage hint data,
    backend 2%nat = Responded 500 statusMessage hint data
    /\ settled r
       = Rejected (errorPrefix (family this) ++ "API request failed: 500 "
                     ++ statusMessage ++ String (ascii_of_nat 10) data)
    /\ before r
       = [sent; Log (ServerErrorLine 500 (backoffDelay 2)); Sleep (backoffDelay 2);
          sent; Log (ServerErrorLine 500 (backoffDelay 1)); Sleep (backoffDelay 1);
          sent]
    /\ after r = []
    /\ List.length (attempts (before r)) = 3%nat
    /\ sleeps (before r) = [Num 1000; Num 2000].
Proof.
  intros Hbudget Hdown sent r.
  destruct (Hdown 0%nat) as (m0 & h0 & d0 & H0).
  destruct (Hdown 1%nat) as (m1 & h1 & d1 & H1).
  destruct (Hdown 2%nat) as (m2 & h2 & d2 & H2).
  exists m2, h2, d2. split; [exact H2 |].
  subst r sent. unfold call. rewrite Hbudget.
  rewrite (makeRequest_server_error _ _ _ _ _ _ _ _ _ _ _ H0) by lia.
  cbv zeta. change (2 - 1) with 1.
  rewrite (makeRequest_server_error _ _ _ _ _ (fun k => backend (S k)) _ _ _ _ _ H1) by lia.
  cbv zeta. change (1 - 1) with 0.
  rewrite (makeRequest_failed _ _ _ _ _ (fun k => backend (S (S k))) _ _ _ _ _ H2) by lia.
  cbn. repeat split.
Qed.

Lemma server_error_exhausts_retries_witness :
  settled (call Sample.parse Sample.openaiProvider (Sample.always Sample.serverDown)
             "hello" None)
  = Rejected ("OpenAI API error: API request failed: 500 Internal Server Error"
                ++ String (ascii_of_nat 10) "overloaded")
  /\ List.length
       (attempts
          (before (call Sample.parse Sample.openaiProvider
                     (Sample.always Sample.serverDown) "hello" None))) = 3%nat
  /\ sleeps
       (before (call Sample.parse Sample.openaiProvider
                  (Sample.always Sample.serverDown) "hello" None))
     = [Num 1000; Num 2000].
Proof.
  destruct (server_error_exhausts_retries Sample.parse Sample.openaiProvider
              (Sample.always Sample.serverDown) "hello" None eq_refl
              (fun _ => ex_intro _ _ (ex_intro _ _ (ex_intro _ _ eq_refl))))
    as (m & h & d & Hlast & Hsettled & _ & _ & Hcount & Hsleeps).
  injection Hlast as <- <- <-.
  repeat split; assumption.
Defined.

(** [parseInt] reads back the decimal rendering of a natural number:
    as an integer always, as a double up to 2^53. *)
Lemma digits_of_uint_acc (u : Decimal.uint) (acc : positive) :
  digits (NilEmpty.string_of_uint u) (Some (Z.pos acc))
  = Some (Z.pos (Pos.of_uint_acc u acc)).
Proof.
  revert acc.
  induction u as [| u IH | u IH | u IH | u IH | u IH | u IH | u IH | u IH | u IH | u IH];
    intros acc; [reflexivity | ..];
    cbn [NilEmpty.string_of_uint digits Pos.of_uint_acc];
    match goal with
    | |- context [digit ?c] =>
        change (digit c) with (Some (Z.of_nat (nat_of_ascii c - 48)))
    end;
    cbv iota beta; rewrite <- IH; do 2 f_equal;
    match goal with
    | |- context [Z.of_nat ?t] =>
        let v := eval vm_compute in (Z.of_nat t) in change (Z.of_nat t) with v
    end; lia.
Qed.

Lemma digits_of_uint (u : Decimal.uint) :
  digits (NilEmpty.string_of_uint u) (Some 0) = Some (Z.of_N (Pos.of_uint u)).
Proof.
  induction u as [| u IH | u IH | u IH | u IH | u IH | u IH | u IH | u IH | u IH | u IH];
    [reflexivity | exact IH | ..];
    cbn [NilEmpty.string_of_uint digits Pos.of_uint];
    match goal with
    | |- context [digit ?c] =>
        change (digit c) with (Some (Z.of_nat (nat_of_ascii c - 48)))
    end;
    cbv iota beta; apply digits_of_uint_acc.
Qed.

Lemma integerValue_renderInt (n : Z) : 0 <= n -> integerValue (renderInt n) = Some n.
Proof.
  intros Hn. destruct n as [| p | p]; [reflexivity | | lia].
  unfold renderInt. cbn [Z.to_int NilZero.string_of_int].
  pose proof (Unsigned.of_to p) as Hback.
  pose proof (digits_of_uint (Pos.to_uint p)) as Hdigits.
  rewrite Hback in Hdigits. cbn [Z.of_N] in Hdigits.
  destruct (Pos.to_uint p); [discriminate Hback | ..]; exact Hdigits.
Qed.

Lemma exact_bound (n : Z) : Z.abs n <= 2 ^ 53 -> exact n = true.
Proof. intros Hn. unfold exact. apply Z.leb_le. exact Hn. Qed.

Lemma ofInteger_exact (n : Z) : Z.abs n <= 2 ^ 53 -> ofInteger n = Num (inject_Z n).
Proof. intros Hn. unfold ofInteger. rewrite (exact_bound n Hn). reflexivity. Qed.

Lemma parseInt_renderInt (n : Z) :
  0 <= n <= 2 ^ 53 -> parseInt (renderInt n) = Num (inject_Z n).
Proof.
  intros Hn. unfold parseInt. rewrite integerValue_renderInt by lia.
  apply ofInteger_exact. lia.
Qed.

(** The product of two integers is computed exactly when the operands
    and the result are within 2^53. *)
Lemma times_exact (x y : Z) :
  Z.abs x <= 2 ^ 53 -> Z.abs y <= 2 ^ 53 -> Z.abs (x * y) <= 2 ^ 53 ->
  times (Num (inject_Z x)) (Num (inject_Z y)) = Num (inject_Z (x * y)).
Proof.
  intros Hx Hy Hxy. unfold times, integerOf.
  cbn [inject_Z Qden Qnum Pos.eqb andb].
  rewrite (exact_bound x Hx), (exact_bound y Hy). apply ofInteger_exact. exact Hxy.
Qed.

Lemma rateLimitDelay_exact (seconds retries : Z) :
  Z.abs seconds * 1000 <= 2 ^ 53 ->
  Z.abs (3 - retries) <= 2 ^ 53 ->
  Z.abs (seconds * 1000 * (3 - retries)) <= 2 ^ 53 ->
  rateLimitDelay (Num (inject_Z seconds)) retries
  = Num (inject_Z (seconds * 1000 * (3 - retries))).
Proof.
  intros Hseconds Hretries Hdelay. unfold rateLimitDelay.
  change (Num 1000) with (Num (inject_Z 1000)).
  rewrite (times_exact seconds 1000) by lia.
  rewrite (ofInteger_exact (3 - retries) Hretries).
  apply times_exact; [lia | exact Hretries | exact Hdelay].
Qed.

(** C4. When an attempt is answered 429 with [retries > 0] remaining,
    the next attempt follows after [seconds * 1000 * (3 - retries)] ms,
    where [seconds] is the integer read from the Retry-After header, or
    5 when there is no header; in particular a header that is the
    decimal numeral of [seconds] is read as [seconds]. This is for the
    numbers that the arithmetic on doubles treats exactly: [retries],
    [seconds * 1000] and the delay within 2^53. With two retries, one
    429 carrying [Retry-After: 5] and then a 200, there are exactly two
    exchanges and the second follows after 5000 ms. *)
Theorem rate_limit_backoff (JSON_parse : string -> option Value)
    (url : string) (options : Options) (body : Value) (timeout : Z) :
  let sent := Attempt (exchange url options body) in
  (forall (backend : nat -> Outcome) (retries : Z) statusMessage hint data seconds,
     backend 0%nat = Responded 429 statusMessage hint data ->
     0 < retries <= 2 ^ 53 ->
     match hint with
     | Some text =>
         integerValue text = Some seconds \/ (0 <= seconds /\ text = renderInt seconds)
     | None => seconds = 5
     end ->
     Z.abs seconds * 1000 <= 2 ^ 53 ->
     Z.abs (seconds * 1000 * (3 - retries)) <= 2 ^ 53 ->
     let delay := Num (inject_Z (seconds * 1000 * (3 - retries))) in
     let next :=
       makeRequest JSON_parse (fun k => backend (S k)) url options body
         (retries - 1) timeout in
     makeRequest JSON_parse backend url options body retries timeout
     = {| settled := settled next;
          before := [sent; Log (RateLimitedLine delay); Sleep delay] ++ before next;
          after := after next |})
  /\ (forall (backend : nat -> Outcome) statusMessage data statusMessage' hint' data',
        backend 0%nat = Responded 429 statusMessage (Some "5") data ->
        backend 1%nat = Responded 200 statusMessage' hint' data' ->
        let r := makeRequest JSON_parse backend url options body 2 timeout in
        settled r = Resolved match JSON_parse data' with
                             | Some v => v
                             | None => VStr data'
                             end
        /\ before r
           = [sent; Log (RateLimitedLine (Num 5000)); Sleep (Num 5000); sent]
        /\ after r = []).
Proof.
  intros sent. split.
  - intros backend retries statusMessage hint data seconds Hout Hpos Hseconds
      Hsmall Hdelay delay next.
    rewrite (makeRequest_rate_limited _ _ _ _ _ _ _ _ _ _ Hout) by lia. cbv zeta.
    assert (Hparsed : parseInt (orElse hint "5") = Num (inject_Z seconds)).
    { unfold parseInt.
      assert (Hread : integerValue (orElse hint "5") = Some seconds).
      { destruct hint as [text |]; [| subst seconds; reflexivity].
        assert (Hread : integerValue text = Some seconds).
        { destruct Hseconds as [Hread | [Hnat ->]];
            [exact Hread | exact (integerValue_renderInt seconds Hnat)]. }
        destruct text as [| c text]; [discriminate Hread | exact Hread]. }
      rewrite Hread. apply ofInteger_exact. lia. }
    rewrite Hparsed, rateLimitDelay_exact by lia. reflexivity.
  - intros backend statusMessage data statusMessage' hint' data' H0 H1 r. subst r.
    rewrite (makeRequest_rate_limited _ _ _ _ _ _ _ _ _ _ H0) by lia.
    cbv zeta. change (2 - 1) with 1.
    rewrite (makeRequest_success _ _ _ _ _ (fun k => backend (S k)) _ _ _ _ _ H1) by lia.
    repeat split.
Qed.

Lemma rate_limit_backoff_witness :
  settled (makeRequest Sample.parse Sample.limitedOnce Sample.chatUrl Sample.post
             (VObj []) 2 30000)
  = Resolved (VObj [])
  /\ sleeps (before (makeRequest Sample.parse Sample.limitedOnce Sample.chatUrl
                       Sample.post (VObj []) 2 30000))
     = [Num 5000]
  /\ List.length
       (attempts (before (makeRequest Sample.parse Sample.limitedOnce Sample.chatUrl
                            Sample.post (VObj []) 2 30000))) = 2%nat.
Proof.
  destruct (proj2 (rate_limit_backoff Sample.parse Sample.chatUrl Sample.post
                     (VObj []) 30000)
              Sample.limitedOnce "Too Many Requests" "" "OK" None "{}" eq_refl eq_refl)
    as [Hsettled [Hbefore _]].
  rewrite Hsettled, Hbefore. repeat split.
Defined.

(** C1, as the code has it. With two retries available and every
    attempt timing out, the promise of [makeRequest] is rejected when
    the first timer fires: one exchange has been made, no delay has
    been slept and no retry has been taken; [callAI] with the default
    budget fails the same way. This holds whether or not the destroyed
    request emits ['error']; if it does, the retries of the error
    handler, 1000 ms and 2000 ms apart, run after the call has already
    failed. *)
Theorem timeout_rejects_at_once (JSON_parse : string -> option Value)
    (destroyError : option string) (url : string) (options : Options) (body : Value) :
  let r := makeRequest JSON_parse (Sample.always (TimerFired destroyError))
             url options body 2 30000 in
  let facade := callAI JSON_parse Sample.openai
                  (Sample.always (TimerFired destroyError)) "hello" None in
  settled r = Rejected "Request timeout after 30000ms"
  /\ before r = [Attempt (exchange url options body)]
  /\ sleeps (before r) = []
  /\ sleeps (after r)
     = match destroyError with
       | Some _ => [Num 1000; Num 2000]
       | None => []
       end
  /\ settled facade = Rejected "OpenAI API error: Request timeout after 30000ms"
  /\ List.length (attempts (before facade)) = 1%nat
  /\ sleeps (before facade) = [].
Proof.
  intros r facade. subst r facade.
  destruct (makeRequest_timer_fired JSON_parse url options body 30000
              (Sample.always (TimerFired destroyError)) 2 destroyError eq_refl)
    as [Hsettled Hbefore].
  rewrite Hsettled, Hbefore.
  split; [reflexivity |]. split; [reflexivity |]. split; [reflexivity |].
  split.
  - rewrite makeRequest_equation_1. cbn.
    destruct destroyError as [message |]; [| reflexivity].
    rewrite makeRequest_equation_1. cbn.
    rewrite makeRequest_equation_1. cbn.
    reflexivity.
  - unfold callAI. rewrite createAIProvider_openai. unfold call.
    match goal with
    | |- context [makeRequest ?p ?b ?u ?o ?v ?n ?t] =>
        destruct (makeRequest_timer_fired p u o v t b n destroyError eq_refl)
          as [Hs Hb]
    end.
    rewrite Hs, Hb. repeat split.
Qed.

(** ** Factory *)

(** C6. With [provider = "local"] and no [baseUrl] (absent or empty)
    the factory throws its configuration error, and [callAI] rejects
    with it without a single HTTP exchange. *)
Theorem local_requires_baseUrl (JSON_parse : string -> option Value)
    (config : Config.t) (backend : nat -> Outcome) (prompt : string)
    (systemPrompt : option string) :
  Config.provider config = Some "local" ->
  truthyOpt (Config.baseUrl config) = false ->
  snd (createAIProvider config) = Throw "baseUrl is required for local provider"
  /\ let r := callAI JSON_parse config backend prompt systemPrompt in
     settled r = Rejected "baseUrl is required for local provider"
     /\ attempts (before r ++ after r) = [].
Proof.
  intros Hprovider Hurl.
  assert (Hthrown : exists lines,
             createAIProvider config
             = (lines, Throw "baseUrl is required for local provider")).
  { unfold createAIProvider. rewrite Hprovider. cbn.
    rewrite andb_false_r. cbn.
    destruct (Config.baseUrl config) as [address |]; [| eexists; reflexivity].
    rewrite Hurl. cbn. eexists; reflexivity. }
  destruct Hthrown as [lines Hthrown].
  split; [rewrite Hthrown; reflexivity |].
  unfold callAI. rewrite Hthrown. cbn. split; [reflexivity |].
  rewrite app_nil_r. clear Hthrown.
  induction lines as [| line lines IH]; [reflexivity | exact IH].
Qed.

Lemma local_requires_baseUrl_witness :
  snd (createAIProvider Sample.localNoUrl)
  = Throw "baseUrl is required for local provider"
  /\ settled (callAI Sample.parse Sample.localNoUrl
                (Sample.always (Responded 200 "OK" None "{}")) "hello" None)
     = Rejected "baseUrl is required for local provider".
Proof.
  destruct (local_requires_baseUrl Sample.parse Sample.localNoUrl
              (Sample.always (Responded 200 "OK" None "{}")) "hello" None
              eq_refl eq_refl) as [Hfactory [Hsettled _]].
  split; assumption.
Defined.

(** What the factory resolves when [timeout], [model] and
    [maxRetries] are not configured: the per-family model, 2 retries,
    and a timeout of 30000 ms for every family, [local] included. *)
Lemma createAIProvider_defaults (config : Config.t) (this : Provider) :
  Config.timeout config = None ->
  Config.model config = None ->
  Config.maxRetries config = None ->
  snd (createAIProvider config) = Return this ->
  timeout this = 30000
  /\ maxRetries this = 2
  /\ model this = match family this with
                  | OpenAI => "gpt-3.5-turbo"
                  | Claude => "claude-3-sonnet-20240229"
                  | Local => "llama2"
                  end.
Proof.
  intros Htimeout Hmodel Hretries. unfold createAIProvider.
  rewrite Htimeout, Hmodel, Hretries. cbn.
  destruct (negb (truthyStr (Config.apiKey config))
            && negb (String.eqb (defaultTo "openai" (Config.provider config)) "local"))%bool;
    cbn; [discriminate |].
  destruct (String.eqb _ "openai"); [intros [= <-]; repeat split |].
  destruct (String.eqb _ "claude"); [intros [= <-]; repeat split |].
  destruct (String.eqb _ "local"); [| discriminate].
  destruct (Config.baseUrl config) as [address |]; [| discriminate].
  destruct (negb (truthyOpt (Some address))); [discriminate |].
  intros [= <-]. repeat split.
Qed.

(** C8, as the code has it. For a local endpoint configured without
    [timeout], [model] and [maxRetries], the factory builds a provider
    with model [llama2] and 2 retries, but with a per-attempt timeout of
    30000 ms: the default of the destructured [timeout] is applied
    before [timeout || 60000] is evaluated. The constructor's own
    default, reached only when it is called without a timeout, is
    60000. *)
Theorem local_default_timeout :
  (exists this,
     snd (createAIProvider Sample.ollama) = Return this
     /\ family this = Local
     /\ model this = "llama2"
     /\ maxRetries this = 2
     /\ timeout this = 30000)
  /\ timeout (LocalProvider Undefined "http://localhost:11434/v1" None None None)
     = 60000.
Proof.
  split; [eexists; repeat split | reflexivity].
Qed.

(** ** Providers *)

(** A response whose list of choices or content blocks is there but
    empty, or whose first element carries no text, yields the empty
    string. *)
Lemma responseText_empty (f : Family) (first : list (string * Value)) :
  let field := match f with Claude => "content" | _ => "choices" end in
  lookup first (match f with Claude => "text" | _ => "message" end) = VUndefined ->
  responseText f (VObj [(field, VArr [])]) = Return (VStr "")
  /\ responseText f (VObj [(field, VArr [VObj first])]) = Return (VStr "").
Proof.
  intros field Hnone. subst field.
  destruct f; cbn; rewrite Hnone; split; reflexivity.
Qed.

(** C7, as the code has it. On the 2xx body [{}], an object without
    [choices] and without [content], reading the text throws for every
    family ([response.choices] and [response.content] are [undefined],
    and indexing [undefined] is not guarded by [?.]), so [call] rejects
    instead of returning the empty string. *)
Theorem responseText_without_field (f : Family) :
  responseText f (VObj []) = Throw "Cannot read properties of undefined (reading '0')"
  /\ forall this : Provider,
       family this = f ->
       settled (call Sample.parse this (Sample.always (Responded 200 "OK" None "{}"))
                  "hello" None)
       = Rejected (errorPrefix f
                     ++ "Cannot read properties of undefined (reading '0')").
Proof.
  split; [destruct f; reflexivity |].
  intros this Hfamily. unfold call.
  rewrite (makeRequest_success Sample.parse _ _ _ _ _ _ 200 "OK" None "{}" eq_refl)
    by lia.
  cbn. rewrite Hfamily. destruct f; reflexivity.
Qed.

Lemma responseText_without_field_witness :
  settled (call Sample.parse Sample.claudeProvider
             (Sample.always (Responded 200 "OK" None "{}")) "hello" None)
  = Rejected "Claude API error: Cannot read properties of undefined (reading '0')".
Proof.
  exact (proj2 (responseText_without_field Claude) Sample.claudeProvider eq_refl).
Defined.

(** C9. Whatever the prompts, every exchange of a Claude provider's
    [call] is a POST to [{baseUrl}/v1/messages] with the three headers
    [Content-Type: application/json], [x-api-key: {apiKey}] and
    [anthropic-version: 2023-06-01], and the body [{model, max_tokens:
    2000, messages: [{role: "user", content: prompt}]}], followed by
    [system] when a non-empty system prompt is given; the system prompt
    appears nowhere else. The first exchange is made at once, unless
    [protocol.request] refuses the request by throwing: then nothing
    is sent and the call fails with the exception's message. *)
Theorem claude_request (JSON_parse : string -> option Value) (this : Provider)
    (backend : nat -> Outcome) (prompt : string) (systemPrompt : option string) :
  family this = Claude ->
  let address := baseUrl this ++ "/v1/messages" in
  let sent :=
    {| protocol := if startsWith address "https" then Https else Http;
       url := address;
       options :=
         {| method := "POST";
            headers := [("Content-Type", Defined "application/json");
                        ("x-api-key", apiKey this);
                        ("anthropic-version", Defined "2023-06-01")] |};
       written :=
         WrittenJSON
           (VObj ([("model", VStr (model this));
                   ("max_tokens", VNum 2000);
                   ("messages",
                    VArr [VObj [("role", VStr "user"); ("content", VStr prompt)]])]
                  ++ match systemPrompt with
                     | Some text =>
                         if String.eqb text "" then [] else [("system", VStr text)]
                     | None => []
                     end)) |} in
  let r := call JSON_parse this backend prompt systemPrompt in
  Forall (eq sent) (attempts (before r ++ after r))
  /\ ((forall message, backend 0%nat <> Threw message) ->
      exists rest, before r = Attempt sent :: rest)
  /\ (forall message, backend 0%nat = Threw message ->
      settled r = Rejected ("Claude API error: " ++ message)
      /\ attempts (before r ++ after r) = []).
Proof.
  intros Hfamily address sent r.
  assert (Hsent : exchange (requestUrl this) (requestOptions this)
                    (requestBody this prompt systemPrompt) = sent).
  { unfold exchange, requestUrl, requestOptions, requestBody, claudeBody.
    rewrite Hfamily. subst sent address. cbn. f_equal. f_equal. f_equal. f_equal.
    destruct systemPrompt as [text |]; [| reflexivity].
    cbn. destruct (String.eqb text ""); reflexivity. }
  subst r. unfold call. cbn [settled before after]. rewrite <- Hsent.
  split; [apply makeRequest_attempts |]. split.
  - apply makeRequest_first_attempt.
  - intros message Hthrew.
    rewrite (makeRequest_threw _ _ _ _ _ _ _ _ Hthrew), Hfamily. split; reflexivity.
Qed.

Lemma claude_request_witness :
  Forall (eq {| protocol := Https;
                url := "https://api.anthropic.com/v1/messages";
                options :=
                  {| method := "POST";
                     headers := [("Content-Type", Defined "application/json");
                                 ("x-api-key", Defined "sk-ant-0123456789");
                                 ("anthropic-version", Defined "2023-06-01")] |};
                written :=
                  WrittenJSON
                    (VObj [("model", VStr "claude-3-sonnet-20240229");
                           ("max_tokens", VNum 2000);
                           ("messages",
                            VArr [VObj [("role", VStr "user");
                                        ("content", VStr "hello")]]);
                           ("system", VStr "be brief")]) |})
    (attempts
       (before (call Sample.parse Sample.claudeProvider
                  (Sample.always (Errored "ECONNRESET")) "hello" (Some "be brief"))
        ++ after (call Sample.parse Sample.claudeProvider
                    (Sample.always (Errored "ECONNRESET")) "hello" (Some "be brief")))).
Proof.
  exact (proj1 (claude_request Sample.parse Sample.claudeProvider
                  (Sample.always (Errored "ECONNRESET")) "hello" (Some "be brief")
                  eq_refl)).
Defined.

(** * Further properties of the gateway *)

(** ** Factory: validation *)

Lemma attempts_logs (lines : list LogLine) (rest : list Event) :
  attempts (map Log lines ++ rest) = attempts rest.
Proof.
  induction lines as [| line lines IH]; [reflexivity | exact IH].
Qed.

Lemma sleeps_logs (lines : list LogLine) (rest : list Event) :
  sleeps (map Log lines ++ rest) = sleeps rest.
Proof.
  induction lines as [| line lines IH]; [reflexivity | exact IH].
Qed.

(** X1. Without an API key (absent, [null] or empty), every provider
    name other than exactly ["local"], the default [openai] included,
    is refused before anything is logged by the factory:
    [createAIProvider] throws [API key is required for provider: ...], and
    [callAI] rejects with that message after logging it, without any
    HTTP exchange. *)
Theorem api_key_required (JSON_parse : string -> option Value)
    (config : Config.t) (backend : nat -> Outcome) (prompt : string)
    (systemPrompt : option string) :
  truthyStr (Config.apiKey config) = false ->
  defaultTo "openai" (Config.provider config) <> "local" ->
  let name := defaultTo "openai" (Config.provider config) in
  createAIProvider config = ([], Throw ("API key is required for provider: " ++ name))
  /\ callAI JSON_parse config backend prompt systemPrompt
     = {| settled := Rejected ("API key is required for provider: " ++ name);
          before := [Log (Failure ("AI API call failed: API key is required for provider: "
                                     ++ name))];
          after := [] |}.
Proof.
  intros Hkey Hname name.
  assert (Hthrown : createAIProvider config
                    = ([], Throw ("API key is required for provider: " ++ name))).
  { unfold createAIProvider. rewrite Hkey.
    apply String.eqb_neq in Hname. rewrite Hname. reflexivity. }
  split; [exact Hthrown |].
  unfold callAI. rewrite Hthrown. reflexivity.
Qed.

Lemma api_key_required_witness :
  callAI Sample.parse Scenario.noKey (Sample.always Sample.serverDown) "hello" None
  = {| settled := Rejected "API key is required for provider: openai";
       before := [Log (Failure "AI API call failed: API key is required for provider: openai")];
       after := [] |}.
Proof.
  exact (proj2 (api_key_required Sample.parse Scenario.noKey
                  (Sample.always Sample.serverDown) "hello" None eq_refl
                  ltac:(discriminate))).
Defined.

(** X2. A provider name that is none of [openai], [claude], [local] in
    any letter case is refused once the key check has passed: the
    factory logs its line and throws [Unsupported AI provider: ...], and
    [callAI] rejects with it without any HTTP exchange. *)
Theorem unsupported_provider (JSON_parse : string -> option Value)
    (config : Config.t) (backend : nat -> Outcome) (prompt : string)
    (systemPrompt : option string) (name : string) :
  Config.provider config = Some name ->
  truthyStr (Config.apiKey config) = true ->
  toLowerCase name <> "openai" ->
  toLowerCase name <> "claude" ->
  toLowerCase name <> "local" ->
  let refusal :=
    "Unsupported AI provider: " ++ name ++ ". Supported: openai, claude, local" in
  snd (createAIProvider config) = Throw refusal
  /\ settled (callAI JSON_parse config backend prompt systemPrompt) = Rejected refusal
  /\ attempts (before (callAI JSON_parse config backend prompt systemPrompt)
               ++ after (callAI JSON_parse config backend prompt systemPrompt)) = [].
Proof.
  intros Hname Hkey Hopenai Hclaude Hlocal refusal.
  apply String.eqb_neq in Hopenai, Hclaude, Hlocal.
  assert (Hthrown : exists lines, createAIProvider config = (lines, Throw refusal)).
  { unfold createAIProvider. rewrite Hname, Hkey. cbn [defaultTo negb andb].
    rewrite Hopenai, Hclaude, Hlocal. eexists; reflexivity. }
  destruct Hthrown as [lines Hthrown].
  unfold callAI. rewrite Hthrown. cbn [snd settled before after].
  repeat split. rewrite app_nil_r. apply attempts_logs.
Qed.

Lemma unsupported_provider_witness :
  settled (callAI Sample.parse Scenario.gemini (Sample.always Sample.serverDown)
             "hello" None)
  = Rejected "Unsupported AI provider: gemini. Supported: openai, claude, local".
Proof.
  exact (proj1 (proj2 (unsupported_provider Sample.parse Scenario.gemini
                         (Sample.always Sample.serverDown) "hello" None "gemini"
                         eq_refl eq_refl ltac:(discriminate) ltac:(discriminate)
                         ltac:(discriminate)))).
Defined.

(** X3. The exemption of the local provider from the key check
    compares the name as written, while the selection compares it in
    lower case: a name such as [Local] or [LOCAL] without a key is
    refused with [API key is required], although with a key the same
    name selects the local provider. *)
Theorem local_exemption_is_case_sensitive (config : Config.t) (name address : string) :
  Config.provider config = Some name ->
  toLowerCase name = "local" ->
  name <> "local" ->
  Config.baseUrl config = Some address ->
  address <> "" ->
  (truthyStr (Config.apiKey config) = false ->
   snd (createAIProvider config) = Throw ("API key is required for provider: " ++ name))
  /\ (truthyStr (Config.apiKey config) = true ->
      exists this, snd (createAIProvider config) = Return this /\ family this = Local).
Proof.
  intros Hname Hlower Hexact Hurl Haddress.
  apply String.eqb_neq in Hexact.
  unfold createAIProvider. rewrite Hname, Hurl. cbn [defaultTo].
  rewrite Hexact, Hlower. split; intros Hkey; rewrite Hkey; cbn.
  - reflexivity.
  - destruct address as [| c address]; [contradiction | cbn].
    eexists; split; reflexivity.
Qed.

Lemma local_exemption_is_case_sensitive_witness :
  snd (createAIProvider Scenario.capitalLocal)
  = Throw "API key is required for provider: Local".
Proof.
  exact (proj1 (local_exemption_is_case_sensitive Scenario.capitalLocal "Local"
                  "http://localhost:11434/v1" eq_refl eq_refl ltac:(discriminate)
                  eq_refl ltac:(discriminate)) eq_refl).
Defined.

(** X4. Settings given explicitly are kept as given, for a provider
    name in any letter case: the key, the model, the retry budget (0
    included) and the timeout, and the base URL without its trailing
    slash. The one exception is an explicit timeout of 0, which the local
    provider replaces by 60000 while [openai] and [claude] keep it. *)
Theorem explicit_settings_kept (config : Config.t) (f : Family)
    (name key address chosen : string) (limit budget : Z) :
  Config.provider config = Some name ->
  toLowerCase name = match f with
                     | OpenAI => "openai"
                     | Claude => "claude"
                     | Local => "local"
                     end ->
  Config.apiKey config = Defined key -> key <> "" ->
  Config.baseUrl config = Some address -> address <> "" ->
  Config.model config = Some chosen -> chosen <> "" ->
  Config.timeout config = Some limit ->
  Config.maxRetries config = Some budget ->
  snd (createAIProvider config)
  = Return {| family := f;
              apiKey := Defined key;
              baseUrl := stripTrailingSlash address;
              model := chosen;
              timeout := match f with
                         | Local => if limit =? 0 then 60000 else limit
                         | _ => limit
                         end;
              maxRetries := budget |}.
Proof.
  intros Hname Hlower Hkey Hkeyed Hurl Haddress Hmodel Hchosen Hlimit Hbudget.
  unfold createAIProvider.
  rewrite Hname, Hkey, Hurl, Hmodel, Hlimit, Hbudget. cbn [defaultTo].
  rewrite Hlower.
  destruct key as [| k key]; [contradiction |].
  destruct address as [| a address]; [contradiction |].
  destruct chosen as [| m chosen]; [contradiction |].
  destruct f; cbn; try reflexivity.
  unfold truthyInt. destruct (limit =? 0); reflexivity.
Qed.

Lemma explicit_settings_kept_witness :
  snd (createAIProvider Scenario.tuned)
  = Return {| family := Claude;
              apiKey := Defined "sk-ant-0123456789";
              baseUrl := "https://proxy.example.com/anthropic";
              model := "claude-3-opus-20240229";
              timeout := 45000;
              maxRetries := 0 |}.
Proof.
  exact (explicit_settings_kept Scenario.tuned Claude "Claude" "sk-ant-0123456789"
           "https://proxy.example.com/anthropic/" "claude-3-opus-20240229" 45000 0
           eq_refl eq_refl eq_refl ltac:(discriminate) eq_refl ltac:(discriminate)
           eq_refl ltac:(discriminate) eq_refl eq_refl).
Defined.

(** ** Transport: the retry budget *)

Lemma attempts_app (a b : list Event) :
  attempts (a ++ b) = (attempts a ++ attempts b)%list.
Proof.
  induction a as [| [e | ms | line | thrown] a IH]; cbn; rewrite ?IH; reflexivity.
Qed.

Lemma sleeps_app (a b : list Event) :
  sleeps (a ++ b) = (sleeps a ++ sleeps b)%list.
Proof.
  induction a as [| [e | ms | line | thrown] a IH]; cbn; rewrite ?IH; reflexivity.
Qed.

Section Budget.

Variable JSON_parse : string -> option Value.
Variables (url : string) (options : Options) (body : Value) (timeout : Z).

Let send backend retries :=
  makeRequest JSON_parse backend url options body retries timeout.

Let sent := exchange url options body.

(** How many exchanges and sleeps a call makes, before and after its
    promise settles. *)
Let accounted (r : Run) (budget : nat) : Prop :=
  (List.length (attempts (before r)) + List.length (attempts (after r))
   <= S budget)%nat
  /\ (List.length (sleeps (before r)) + List.length (sleeps (after r)) <= budget)%nat.

Lemma makeRequest_accounted backend retries :
  accounted (send backend retries) (Z.to_nat retries).
Proof.
  remember (Z.to_nat retries) as n eqn:Hn.
  revert backend retries Hn.
  induction n as [n IH] using lt_wf_ind. intros backend retries Hn.
  assert (Hrec : retries > 0 ->
            accounted (send (fun k => backend (S k)) (retries - 1)) (Nat.pred n)).
  { intros Hpos. replace (Nat.pred n) with (Z.to_nat (retries - 1)) by lia.
    apply (IH (Z.to_nat (retries - 1))); [lia | reflexivity]. }
  assert (Hretry : forall line delay,
            retries > 0 ->
            accounted (followedBy [Attempt sent; Log line; Sleep delay]
                         (send (fun k => backend (S k)) (retries - 1))) n).
  { intros line delay Hpos. destruct (Hrec Hpos) as (Hexchanges & Hsleeps).
    unfold accounted. cbn. lia. }
  assert (Hsingle : forall s,
            accounted {| settled := s; before := [Attempt sent]; after := [] |} n).
  { intros s. unfold accounted. cbn. lia. }
  unfold send, sent in *. rewrite makeRequest_equation_1. cbv zeta.
  destruct (backend 0%nat)
    as [statusCode statusMessage hint data | message | destroyError | message].
  - destruct ((200 <=? statusCode) && (statusCode <? 300))%bool; [apply Hsingle |].
    destruct (statusCode =? 429), (Z_gt_dec retries 0) as [Hpos | Hno],
      (500 <=? statusCode);
      first [ apply Hsingle | apply Hretry; exact Hpos ].
  - destruct (Z_gt_dec retries 0) as [Hpos | Hno];
      [apply Hretry; exact Hpos | apply Hsingle].
  - destruct destroyError as [message |]; [| apply Hsingle].
    destruct (Z_gt_dec retries 0) as [Hpos | Hno]; [| apply Hsingle].
    destruct (Hrec Hpos) as (Hexchanges & Hsleeps).
    unfold accounted. cbn.
    rewrite attempts_app, sleeps_app, !List.length_app. lia.
  - unfold accounted. cbn. lia.
Qed.

(** The whole history of a call is paced, and closes with an exchange
    or with the exception of the timer that a refused request left
    behind. *)
Lemma makeRequest_paced backend retries :
  Paced sent [Attempt sent]
    (before (send backend retries) ++ after (send backend retries))
  \/ Paced sent [Uncaught uninitialised]
       (before (send backend retries) ++ after (send backend retries)).
Proof.
  remember (Z.to_nat retries) as n eqn:Hn.
  revert backend retries Hn.
  induction n as [n IH] using lt_wf_ind. intros backend retries Hn.
  assert (Hretry : forall line delay,
            delayOf line = Some delay ->
            retries > 0 ->
            let r := followedBy [Attempt sent; Log line; Sleep delay]
                       (send (fun k => backend (S k)) (retries - 1)) in
            Paced sent [Attempt sent] (before r ++ after r)
            \/ Paced sent [Uncaught uninitialised] (before r ++ after r)).
  { intros line delay Hdelay Hpos. cbn.
    destruct (IH (Z.to_nat (retries - 1)) ltac:(lia) (fun k => backend (S k))
                (retries - 1) eq_refl) as [Hlast | Hrefused];
      [left | right]; apply Paced_retry; assumption. }
  assert (Hsingle : forall s,
            let r := {| settled := s; before := [Attempt sent]; after := [] |} in
            Paced sent [Attempt sent] (before r ++ after r)
            \/ Paced sent [Uncaught uninitialised] (before r ++ after r)).
  { intros s. left. apply Paced_end. }
  unfold send, sent in *. rewrite makeRequest_equation_1. cbv zeta.
  destruct (backend 0%nat)
    as [statusCode statusMessage hint data | message | destroyError | message].
  - destruct ((200 <=? statusCode) && (statusCode <? 300))%bool; [apply Hsingle |].
    destruct (statusCode =? 429), (Z_gt_dec retries 0) as [Hpos | Hno],
      (500 <=? statusCode);
      first [ apply Hsingle | apply Hretry; [reflexivity | exact Hpos] ].
  - destruct (Z_gt_dec retries 0) as [Hpos | Hno];
      [apply Hretry; [reflexivity | exact Hpos] | apply Hsingle].
  - destruct destroyError as [message |]; [| apply Hsingle].
    destruct (Z_gt_dec retries 0) as [Hpos | Hno]; [| apply Hsingle].
    cbn.
    destruct (IH (Z.to_nat (retries - 1)) ltac:(lia) (fun k => backend (S k))
                (retries - 1) eq_refl) as [Hlast | Hrefused];
      [left | right]; apply Paced_retry; first [reflexivity | assumption].
  - right. apply Paced_end.
Qed.

(** When no request is refused, the history up to the settlement is
    paced and closes with an exchange. *)
Lemma makeRequest_paced_before backend retries :
  (forall k message, backend k <> Threw message) ->
  Paced sent [Attempt sent] (before (send backend retries)).
Proof.
  remember (Z.to_nat retries) as n eqn:Hn.
  revert backend retries Hn.
  induction n as [n IH] using lt_wf_ind. intros backend retries Hn Hsent.
  assert (Hretry : forall line delay,
            delayOf line = Some delay ->
            retries > 0 ->
            Paced sent [Attempt sent]
              (before (followedBy [Attempt sent; Log line; Sleep delay]
                         (send (fun k => backend (S k)) (retries - 1))))).
  { intros line delay Hdelay Hpos. cbn.
    apply Paced_retry; [exact Hdelay |].
    apply (IH (Z.to_nat (retries - 1))); [lia | reflexivity |].
    intros k message. apply Hsent. }
  assert (Hsingle : forall s after,
            Paced sent [Attempt sent]
              (before {| settled := s; before := [Attempt sent]; after := after |})).
  { intros s after. apply Paced_end. }
  pose proof (Hsent 0%nat) as Hfirst.
  unfold send, sent in *. rewrite makeRequest_equation_1. cbv zeta.
  destruct (backend 0%nat)
    as [statusCode statusMessage hint data | message | destroyError | message].
  - destruct ((200 <=? statusCode) && (statusCode <? 300))%bool; [apply Hsingle |].
    destruct (statusCode =? 429), (Z_gt_dec retries 0) as [Hpos | Hno],
      (500 <=? statusCode);
      first [ apply Hsingle | apply Hretry; [reflexivity | exact Hpos] ].
  - destruct (Z_gt_dec retries 0) as [Hpos | Hno];
      [apply Hretry; [reflexivity | exact Hpos] | apply Hsingle].
  - apply Hsingle.
  - destruct (Hfirst message eq_refl).
Qed.

End Budget.

(** A paced history that closes with an exchange has one exchange more
    than it has sleeps. *)
Lemma Paced_counts (e : Exchange) (events : list Event) :
  Paced e [Attempt e] events ->
  List.length (attempts events) = S (List.length (sleeps events)).
Proof.
  intros Hpaced. induction Hpaced as [| line delay rest Hdelay Hrest IH];
    [reflexivity |].
  cbn. rewrite IH. reflexivity.
Qed.

(** X5. The retry budget bounds everything a call does, the retries
    started after a timeout included: at most [1 + retries] exchanges
    and at most [retries] sleeps ([retries] counted as 0 when it is
    negative), whatever the backend answers. *)
Theorem makeRequest_within_budget (JSON_parse : string -> option Value)
    (backend : nat -> Outcome) (url : string) (options : Options) (body : Value)
    (retries timeout : Z) :
  let r := makeRequest JSON_parse backend url options body retries timeout in
  (List.length (attempts (before r ++ after r)) <= 1 + Z.to_nat retries)%nat
  /\ (List.length (sleeps (before r ++ after r)) <= Z.to_nat retries)%nat.
Proof.
  intros r. subst r.
  destruct (makeRequest_accounted JSON_parse url options body timeout backend retries)
    as (Hexchanges & Hsleeps).
  rewrite attempts_app, sleeps_app, !List.length_app. split; lia.
Qed.

(** X6. Every exchange of a call is followed by the line announcing
    a delay and by the sleep of that delay before the next exchange is
    made, and the call's history closes with an exchange, or, when
    [protocol.request] refused a request, with the exception of the
    timer left behind. When no request is refused this holds of the
    history up to the moment the promise settles, which then has
    exactly one exchange more than it has sleeps. *)
Theorem makeRequest_sleeps_between_attempts (JSON_parse : string -> option Value)
    (backend : nat -> Outcome) (url : string) (options : Options) (body : Value)
    (retries timeout : Z) :
  let r := makeRequest JSON_parse backend url options body retries timeout in
  let sent := exchange url options body in
  (Paced sent [Attempt sent] (before r ++ after r)
   \/ Paced sent [Uncaught uninitialised] (before r ++ after r))
  /\ ((forall k message, backend k <> Threw message) ->
      Paced sent [Attempt sent] (before r)
      /\ List.length (attempts (before r)) = S (List.length (sleeps (before r)))).
Proof.
  intros r sent. subst r sent. split.
  - apply makeRequest_paced.
  - intros Hsent.
    pose proof (makeRequest_paced_before JSON_parse url options body timeout backend
                  retries Hsent) as Hpaced.
    split; [exact Hpaced | exact (Paced_counts _ _ Hpaced)].
Qed.

Lemma makeRequest_sleeps_between_attempts_witness :
  Paced (exchange Sample.chatUrl Sample.post (VObj []))
    [Attempt (exchange Sample.chatUrl Sample.post (VObj []))]
    (before (makeRequest Sample.parse Sample.limitedOnce Sample.chatUrl Sample.post
               (VObj []) 2 30000))
  /\ List.length
       (attempts (before (makeRequest Sample.parse Sample.limitedOnce Sample.chatUrl
                            Sample.post (VObj []) 2 30000)))
     = S (List.length
            (sleeps (before (makeRequest Sample.parse Sample.limitedOnce Sample.chatUrl
                               Sample.post (VObj []) 2 30000)))).
Proof.
  apply (makeRequest_sleeps_between_attempts Sample.parse Sample.limitedOnce
           Sample.chatUrl Sample.post (VObj []) 2 30000).
  intros [| k] message; discriminate.
Defined.

(** X7. With a budget of zero or less nothing is retried: whatever the
    outcome of the first attempt, it is the only exchange and nothing
    is slept, before or after the promise settles; when
    [protocol.request] throws there is no exchange at all. *)
Theorem makeRequest_without_budget (JSON_parse : string -> option Value)
    (backend : nat -> Outcome) (url : string) (options : Options) (body : Value)
    (retries timeout : Z) :
  retries <= 0 ->
  let r := makeRequest JSON_parse backend url options body retries timeout in
  attempts (before r ++ after r)
  = match backend 0%nat with
    | Threw _ => []
    | _ => [exchange url options body]
    end
  /\ sleeps (before r ++ after r) = [].
Proof.
  intros Hnone r. subst r. rewrite makeRequest_equation_1. cbv zeta.
  destruct (backend 0%nat)
    as [statusCode statusMessage hint data | message | destroyError | message].
  - destruct ((200 <=? statusCode) && (statusCode <? 300))%bool;
      [split; reflexivity |].
    destruct (Z_gt_dec retries 0) as [Hpos | _]; [lia |].
    destruct (statusCode =? 429), (500 <=? statusCode); split; reflexivity.
  - destruct (Z_gt_dec retries 0) as [Hpos | _]; [lia | split; reflexivity].
  - destruct destroyError as [message |]; [| split; reflexivity].
    destruct (Z_gt_dec retries 0) as [Hpos | _]; [lia | split; reflexivity].
  - split; reflexivity.
Qed.

Lemma makeRequest_without_budget_witness :
  attempts
    (before (makeRequest Sample.parse (Sample.always (TimerFired (Some "socket hang up")))
               Sample.chatUrl Sample.post (VObj []) 0 30000)
     ++ after (makeRequest Sample.parse (Sample.always (TimerFired (Some "socket hang up")))
                 Sample.chatUrl Sample.post (VObj []) 0 30000))
  = [exchange Sample.chatUrl Sample.post (VObj [])].
Proof.
  exact (proj1 (makeRequest_without_budget Sample.parse
                  (Sample.always (TimerFired (Some "socket hang up")))
                  Sample.chatUrl Sample.post (VObj []) 0 30000 ltac:(lia))).
Defined.

(** A retryable outcome with retries left leads to one more call of
    [makeRequest], which the promise then follows. *)
Lemma makeRequest_retry_step (JSON_parse : string -> option Value)
    (backend : nat -> Outcome) (url : string) (options : Options) (body : Value)
    (retries timeout : Z) :
  retryable (backend 0%nat) = true ->
  retries > 0 ->
  exists line delay,
    makeRequest JSON_parse backend url options body retries timeout
    = followedBy [Attempt (exchange url options body); Log line; Sleep delay]
        (makeRequest JSON_parse (fun k => backend (S k)) url options body
           (retries - 1) timeout).
Proof.
  intros Hretry Hpos. rewrite makeRequest_equation_1. cbv zeta.
  destruct (backend 0%nat)
    as [statusCode statusMessage hint data | message | destroyError | message];
    cbn in Hretry; [| | discriminate | discriminate].
  - destruct ((200 <=? statusCode) && (statusCode <? 300))%bool; [discriminate |].
    destruct (Z_gt_dec retries 0) as [_ | Hno]; [| contradiction].
    destruct (statusCode =? 429); [do 2 eexists; reflexivity |].
    destruct (500 <=? statusCode); [do 2 eexists; reflexivity | discriminate].
  - destruct (Z_gt_dec retries 0) as [_ | Hno]; [| contradiction].
    do 2 eexists; reflexivity.
Qed.

Lemma makeRequest_all_errored (JSON_parse : string -> option Value)
    (url : string) (options : Options) (body : Value) (timeout : Z) (n : nat) :
  forall (backend : nat -> Outcome) (message : nat -> string),
    (forall k, backend k = Errored (message k)) ->
    let r := makeRequest JSON_parse backend url options body (Z.of_nat n) timeout in
    settled r = Rejected (message n)
    /\ List.length (attempts (before r)) = S n
    /\ sleeps (before r) = backoffs n
    /\ after r = [].
Proof.
  induction n as [| n IH]; intros backend message Hdown r; subst r.
  - rewrite (makeRequest_errored_last _ _ _ _ _ _ _ _ (Hdown 0%nat)) by lia.
    repeat split.
  - rewrite (makeRequest_errored _ _ _ _ _ _ _ _ (Hdown 0%nat)) by lia.
    cbv zeta. replace (Z.of_nat (S n) - 1) with (Z.of_nat n) by lia.
    destruct (IH (fun k => backend (S k)) (fun k => message (S k))
                (fun k => Hdown (S k))) as (Hsettled & Hcount & Hsleeps & Hafter).
    cbn [followedBy settled before after app attempts sleeps List.length backoffs].
    rewrite Hsettled, Hcount, Hsleeps, Hafter. repeat split.
Qed.

Lemma backoffs_nth (n k : nat) :
  (k < n)%nat ->
  nth_error (backoffs n) k = Some (backoffDelay (Z.of_nat (n - k))).
Proof.
  revert k. induction n as [| n IH]; intros k Hk; [lia |].
  destruct k as [| k]; [reflexivity |].
  cbn [backoffs nth_error]. rewrite IH by lia.
  replace (S n - S k)%nat with (n - k)%nat by lia. reflexivity.
Qed.

(** X8. When every attempt ends in a request error and the budget is
    [n], the call makes [n + 1] exchanges and rejects with the error of
    the last attempt, unprefixed by the transport. In between it
    sleeps the delays computed for [n], [n - 1], ..., 1 retries
    remaining: [1000 * 2^(2 - r)] ms for [r] up to 1076 and, the power
    of two underflowing, 0 ms from 1077 on. *)
Theorem network_errors_exhaust_budget (JSON_parse : string -> option Value)
    (backend : nat -> Outcome) (message : nat -> string) (url : string)
    (options : Options) (body : Value) (n : nat) (timeout : Z) :
  (forall k, backend k = Errored (message k)) ->
  Z.of_nat n <= 2 ^ 53 ->
  let r := makeRequest JSON_parse backend url options body (Z.of_nat n) timeout in
  settled r = Rejected (message n)
  /\ List.length (attempts (before r)) = S n
  /\ sleeps (before r) = backoffs n
  /\ after r = []
  /\ (forall k : nat, (k < n)%nat ->
        if (n - k <=? 1076)%nat
        then exists q : Q,
               nth_error (sleeps (before r)) k = Some (Num q)
               /\ (q == 1000 * Qpower 2 (2 - Z.of_nat (n - k)))%Q
        else nth_error (sleeps (before r)) k = Some (Num 0)).
Proof.
  intros Hdown Hsize r.
  destruct (makeRequest_all_errored JSON_parse url options body timeout n
              backend message Hdown) as (Hsettled & Hcount & Hsleeps & Hafter).
  fold r in Hsettled, Hcount, Hsleeps, Hafter.
  repeat (split; [assumption |]).
  intros k Hk. rewrite Hsleeps, (backoffs_nth n k Hk).
  destruct (Nat.leb_spec (n - k) 1076) as [Hexact | Hunder].
  - destruct (backoffDelay_formula (Z.of_nat (n - k)) ltac:(lia)) as (q & Hq & Hvalue).
    exists q. rewrite Hq. split; [reflexivity | exact Hvalue].
  - rewrite backoffDelay_underflow by lia. reflexivity.
Qed.

Lemma network_errors_exhaust_budget_witness :
  settled (makeRequest Sample.parse Scenario.refused Sample.chatUrl Sample.post
             (VObj []) 3 30000)
  = Rejected "connect ECONNREFUSED"
  /\ sleeps (before (makeRequest Sample.parse Scenario.refused Sample.chatUrl Sample.post
                       (VObj []) 3 30000))
     = [Num 500; Num 1000; Num 2000].
Proof.
  destruct (network_errors_exhaust_budget Sample.parse Scenario.refused
              (fun _ => "connect ECONNREFUSED") Sample.chatUrl Sample.post (VObj [])
              3 30000 (fun _ => eq_refl) ltac:(lia)) as (Hsettled & _ & Hsleeps & _).
  split; [exact Hsettled | exact Hsleeps].
Defined.

(** The delays of the formula add up to less than four seconds; the
    sum no longer grows from 1076 retries on, where they are 0. *)
Lemma backoffs_total (n : nat) :
  exists total : Q,
    totalDelay (backoffs n) = Some total
    /\ (total == 4000 - 1000 * Qpower 2 (2 - Z.min (Z.of_nat n) 1076))%Q.
Proof.
  induction n as [| n (total & Htotal & Hsum)].
  - exists 0%Q. split; reflexivity.
  - cbn [backoffs].
    destruct (Z_le_gt_dec (Z.of_nat (S n)) 1076) as [Hexact | Hunder].
    + destruct (backoffDelay_formula (Z.of_nat (S n)) ltac:(lia)) as (q & Hq & Hvalue).
      rewrite Hq. cbn [totalDelay]. rewrite Htotal. cbn [option_map].
      eexists. split; [reflexivity |].
      rewrite Hvalue, Hsum.
      replace (Z.min (Z.of_nat n) 1076) with (Z.of_nat n) by lia.
      replace (Z.min (Z.of_nat (S n)) 1076) with (Z.of_nat (S n)) by lia.
      replace (2 - Z.of_nat n) with (1 + (2 - Z.of_nat (S n))) by lia.
      rewrite Qpower_plus by discriminate.
      change (Qpower 2 1) with 2%Q. ring.
    + rewrite backoffDelay_underflow by lia. cbn [totalDelay].
      rewrite Htotal. cbn [option_map].
      eexists. split; [reflexivity |].
      rewrite Hsum.
      replace (Z.min (Z.of_nat n) 1076) with 1076 by lia.
      replace (Z.min (Z.of_nat (S n)) 1076) with 1076 by lia.
      ring.
Qed.

(** X9. Under persistent request errors the delays passed to [sleep]
    add up to [4000 - 1000 * 2^(2 - n)] ms for a budget of [n] retries
    up to 1076, and to the same as for 1076 above (the delay is 0 from
    1077 retries remaining on): their sum stays below four seconds
    however large the budget is. The sum is that of the arguments of
    [sleep], not of the time the timers take. *)
Theorem network_errors_total_backoff (JSON_parse : string -> option Value)
    (backend : nat -> Outcome) (message : nat -> string) (url : string)
    (options : Options) (body : Value) (n : nat) (timeout : Z) :
  (forall k, backend k = Errored (message k)) ->
  Z.of_nat n <= 2 ^ 53 ->
  exists total : Q,
    totalDelay
      (sleeps (before (makeRequest JSON_parse backend url options body
                         (Z.of_nat n) timeout)))
    = Some total
    /\ (total == 4000 - 1000 * Qpower 2 (2 - Z.min (Z.of_nat n) 1076))%Q
    /\ (total < 4000)%Q.
Proof.
  intros Hdown Hsize.
  destruct (makeRequest_all_errored JSON_parse url options body timeout n
              backend message Hdown) as (_ & _ & Hsleeps & _).
  rewrite Hsleeps.
  destruct (backoffs_total n) as (total & Htotal & Hsum).
  exists total. split; [exact Htotal |]. split; [exact Hsum |].
  rewrite Hsum.
  set (exponent := 2 - Z.min (Z.of_nat n) 1076).
  assert (Hpositive : (0 < Qpower 2 exponent)%Q)
    by (apply Qpower_0_lt; reflexivity).
  apply (Qplus_lt_l _ _ (1000 * Qpower 2 exponent - 4000)%Q).
  ring_simplify.
  apply (Qmult_lt_l _ _ 1000%Q) in Hpositive; [| reflexivity].
  ring_simplify in Hpositive. exact Hpositive.
Qed.

Lemma network_errors_total_backoff_witness :
  exists total : Q,
    totalDelay
      (sleeps (before (makeRequest Sample.parse Scenario.refused Sample.chatUrl
                         Sample.post (VObj []) (Z.of_nat 5) 30000)))
    = Some total
    /\ (total < 4000)%Q.
Proof.
  destruct (network_errors_total_backoff Sample.parse Scenario.refused
              (fun _ => "connect ECONNREFUSED") Sample.chatUrl Sample.post (VObj [])
              5 30000 (fun _ => eq_refl) ltac:(lia)) as (total & Htotal & _ & Hbound).
  exists total. split; assumption.
Defined.

(** X10. A success is returned as long as the budget covers the
    failures before it: after [k] retryable outcomes (429, a status of
    500 or more, a request error) and with at least [k] retries, a 2xx
    answer to the next attempt resolves the call, with its parsed body,
    after exactly [k + 1] exchanges, and nothing happens afterwards. *)
Theorem success_after_failures (JSON_parse : string -> option Value)
    (url : string) (options : Options) (body : Value) (timeout : Z) (k : nat) :
  forall (backend : nat -> Outcome) (retries : Z) statusCode statusMessage hint data,
    (forall j, (j < k)%nat -> retryable (backend j) = true) ->
    backend k = Responded statusCode statusMessage hint data ->
    200 <= statusCode < 300 ->
    Z.of_nat k <= retries ->
    let r := makeRequest JSON_parse backend url options body retries timeout in
    settled r = Resolved match JSON_parse data with
                         | Some v => v
                         | None => VStr data
                         end
    /\ List.length (attempts (before r)) = S k
    /\ after r = [].
Proof.
  induction k as [| k IH];
    intros backend retries statusCode statusMessage hint data Hfail Hok Hrange Hbudget r;
    subst r.
  - rewrite (makeRequest_success _ _ _ _ _ _ _ _ _ _ _ Hok Hrange). repeat split.
  - destruct (makeRequest_retry_step JSON_parse backend url options body retries timeout)
      as (line & delay & Hstep); [apply Hfail; lia | lia |].
    rewrite Hstep.
    destruct (IH (fun j => backend (S j)) (retries - 1) statusCode statusMessage hint data)
      as (Hsettled & Hcount & Hafter);
      [intros j Hj; apply Hfail; lia | exact Hok | exact Hrange | lia |].
    cbn [followedBy settled before after app attempts List.length].
    rewrite Hsettled, Hcount, Hafter. repeat split.
Qed.

Lemma success_after_failures_witness :
  settled (makeRequest Sample.parse Scenario.flaky Sample.chatUrl Sample.post (VObj [])
             2 30000)
  = Resolved (VStr "pong")
  /\ List.length
       (attempts (before (makeRequest Sample.parse Scenario.flaky Sample.chatUrl
                            Sample.post (VObj []) 2 30000))) = 3%nat.
Proof.
  destruct (success_after_failures Sample.parse Sample.chatUrl Sample.post (VObj [])
              30000 2 Scenario.flaky 2 200 "OK" None "pong") as (Hsettled & Hcount & _).
  - intros [| [| j]] Hj; [reflexivity | reflexivity | lia].
  - reflexivity.
  - lia.
  - lia.
  - split; [exact Hsettled | exact Hcount].
Defined.

(** ** Transport: rate limits *)

(** X11. With three or more retries remaining, a 429 is not waited
    out. For a Retry-After of [seconds >= 0] (its decimal numeral, or
    the default 5 without header), and numbers that the arithmetic on
    doubles treats exactly, the delay is [seconds * 1000 * (3 -
    retries)]: zero at three retries remaining or with [seconds = 0],
    negative with more than three retries and [seconds > 0]. *)
Theorem rate_limit_delay_vanishes (JSON_parse : string -> option Value)
    (backend : nat -> Outcome) (url : string) (options : Options) (body : Value)
    (retries timeout : Z) (statusMessage : string) (hint : option string)
    (data : string) (seconds : Z) :
  backend 0%nat = Responded 429 statusMessage hint data ->
  3 <= retries <= 2 ^ 53 ->
  0 <= seconds ->
  seconds * 1000 <= 2 ^ 53 ->
  seconds * 1000 * (retries - 3) <= 2 ^ 53 ->
  match hint with
  | Some text => text = renderInt seconds
  | None => seconds = 5
  end ->
  exists (delay : Q) (rest : list Event),
    before (makeRequest JSON_parse backend url options body retries timeout)
    = Attempt (exchange url options body)
        :: Log (RateLimitedLine (Num delay)) :: Sleep (Num delay) :: rest
    /\ delay = inject_Z (seconds * 1000 * (3 - retries))
    /\ (retries = 3 \/ seconds = 0 -> delay = 0%Q)
    /\ (3 < retries -> 0 < seconds -> (delay < 0)%Q).
Proof.
  intros Hout Hbudget Hseconds Hsmall Hdelay Hhint.
  rewrite (makeRequest_rate_limited _ _ _ _ _ _ _ _ _ _ Hout) by lia. cbv zeta.
  assert (Hparsed : parseInt (orElse hint "5") = Num (inject_Z seconds)).
  { destruct hint as [text |]; [| subst seconds; reflexivity].
    subst text. pose proof (parseInt_renderInt seconds ltac:(lia)) as Hread.
    destruct (renderInt seconds); [discriminate Hread | exact Hread]. }
  assert (Hfactor : 0 <= seconds * 1000 * (retries - 3))
    by (apply Z.mul_nonneg_nonneg; lia).
  rewrite Hparsed, rateLimitDelay_exact by lia.
  cbn [followedBy before app].
  do 2 eexists. split; [reflexivity |]. split; [reflexivity |]. split.
  - intros [-> | ->]; [replace (seconds * 1000 * (3 - 3)) with 0 by lia | cbn [Z.mul]];
      reflexivity.
  - intros Hmore Hsome. unfold Qlt. cbn [Qnum Qden inject_Z].
    assert (Hpositive : 0 < seconds * 1000 * (retries - 3))
      by (apply Z.mul_pos_pos; lia).
    lia.
Qed.

Lemma rate_limit_delay_vanishes_witness :
  exists (delay : Q) (rest : list Event),
    before (makeRequest Sample.parse Scenario.limited Sample.chatUrl Sample.post
              (VObj []) 4 30000)
    = Attempt (exchange Sample.chatUrl Sample.post (VObj []))
        :: Log (RateLimitedLine (Num delay)) :: Sleep (Num delay) :: rest
    /\ delay = (-5000)%Q.
Proof.
  destruct (rate_limit_delay_vanishes Sample.parse Scenario.limited Sample.chatUrl
              Sample.post (VObj []) 4 30000 "Too Many Requests" (Some "5") "" 5
              eq_refl ltac:(lia) ltac:(lia) ltac:(lia) ltac:(lia) eq_refl)
    as (delay & rest & Hbefore & Hvalue & _).
  exists delay, rest. split; [exact Hbefore | exact Hvalue].
Defined.

Lemma parseInt_not_a_number (c : ascii) (rest : string) :
  isWhite c = false ->
  digit c = None ->
  c <> "-"%char ->
  c <> "+"%char ->
  parseInt (String c rest) = NaN.
Proof.
  intros Hwhite Hdigit Hminus Hplus.
  assert (Hnone : integerValue (String c rest) = None).
  { unfold integerValue. cbn [trimStart]. rewrite Hwhite.
    assert (Hdigits : digits (String c rest) None = None)
      by (cbn [digits]; rewrite Hdigit; reflexivity).
    destruct c as [[|] [|] [|] [|] [|] [|] [|] [|]];
      first [ exact Hdigits | exfalso; apply Hminus; reflexivity
            | exfalso; apply Hplus; reflexivity ]. }
  unfold parseInt. rewrite Hnone. reflexivity.
Qed.

(** X12. A Retry-After header that is not a number, such as an HTTP
    date (it starts with a character that is neither white space, a
    sign nor a digit), is not ignored in favour of the default: the
    delay computed from it is NaN. *)
Theorem retry_after_date_gives_NaN (JSON_parse : string -> option Value)
    (backend : nat -> Outcome) (url : string) (options : Options) (body : Value)
    (retries timeout : Z) (statusMessage : string) (c : ascii) (rest data : string) :
  backend 0%nat = Responded 429 statusMessage (Some (String c rest)) data ->
  retries > 0 ->
  isWhite c = false ->
  digit c = None ->
  c <> "-"%char ->
  c <> "+"%char ->
  exists more : list Event,
    before (makeRequest JSON_parse backend url options body retries timeout)
    = Attempt (exchange url options body)
        :: Log (RateLimitedLine NaN) :: Sleep NaN :: more.
Proof.
  intros Hout Hpos Hwhite Hdigit Hminus Hplus.
  rewrite (makeRequest_rate_limited _ _ _ _ _ _ _ _ _ _ Hout Hpos). cbv zeta.
  change (orElse (Some (String c rest)) "5") with (String c rest).
  rewrite (parseInt_not_a_number c rest Hwhite Hdigit Hminus Hplus).
  eexists. reflexivity.
Qed.

Lemma retry_after_date_gives_NaN_witness :
  exists more : list Event,
    before (makeRequest Sample.parse Scenario.limitedByDate Sample.chatUrl Sample.post
              (VObj []) 2 30000)
    = Attempt (exchange Sample.chatUrl Sample.post (VObj []))
        :: Log (RateLimitedLine NaN) :: Sleep NaN :: more.
Proof.
  exact (retry_after_date_gives_NaN Sample.parse Scenario.limitedByDate Sample.chatUrl
           Sample.post (VObj []) 2 30000 "Too Many Requests" "W"%char
           "ed, 21 Oct 2015 07:28:00 GMT" "" eq_refl ltac:(lia) eq_refl eq_refl
           ltac:(discriminate) ltac:(discriminate)).
Defined.

(** ** Providers: requests and responses *)

(** X13. Every exchange of an OpenAI or local provider's [call] is a
    POST to [{baseUrl}/chat/completions] with body [{model, messages,
    temperature: 0.7, max_tokens: 2000}], where [messages] is the user
    turn, preceded by a system turn when a non-empty system prompt is
    given. OpenAI always sends [Authorization: Bearer {apiKey}]; the
    local provider sends it only when its key is not empty. The first
    exchange is made at once, unless [protocol.request] refuses the
    request by throwing: then nothing is sent and the call fails with
    the exception's message under the provider's prefix. *)
Theorem chat_request (JSON_parse : string -> option Value) (this : Provider)
    (backend : nat -> Outcome) (prompt : string) (systemPrompt : option string) :
  family this <> Claude ->
  let address := baseUrl this ++ "/chat/completions" in
  let authorised :=
    match family this with
    | Local => truthyStr (apiKey this)
    | _ => true
    end in
  let turn role content := VObj [("role", VStr role); ("content", VStr content)] in
  let sent :=
    {| protocol := if startsWith address "https" then Https else Http;
       url := address;
       options :=
         {| method := "POST";
            headers :=
              ("Content-Type", Defined "application/json")
                :: (if authorised
                    then [("Authorization", Defined ("Bearer " ++ render (apiKey this)))]
                    else []) |};
       written :=
         WrittenJSON
           (VObj [("model", VStr (model this));
                  ("messages",
                   VArr (match systemPrompt with
                         | Some text =>
                             if String.eqb text "" then [] else [turn "system" text]
                         | None => []
                         end ++ [turn "user" prompt]));
                  ("temperature", VNum (7 # 10));
                  ("max_tokens", VNum 2000)]) |} in
  let r := call JSON_parse this backend prompt systemPrompt in
  Forall (eq sent) (attempts (before r ++ after r))
  /\ ((forall message, backend 0%nat <> Threw message) ->
      exists rest, before r = Attempt sent :: rest)
  /\ (forall message, backend 0%nat = Threw message ->
      settled r = Rejected (errorPrefix (family this) ++ message)
      /\ attempts (before r ++ after r) = []).
Proof.
  intros Hfamily address authorised turn sent r.
  assert (Hsent : exchange (requestUrl this) (requestOptions this)
                    (requestBody this prompt systemPrompt) = sent).
  { assert (Hbody : chatBody this prompt systemPrompt
                    = VObj [("model", VStr (model this));
                            ("messages",
                             VArr (match systemPrompt with
                                   | Some text =>
                                       if String.eqb text "" then []
                                       else [turn "system" text]
                                   | None => []
                                   end ++ [turn "user" prompt]));
                            ("temperature", VNum (7 # 10));
                            ("max_tokens", VNum 2000)]).
    { unfold chatBody, chatMessages, message. subst turn.
      destruct systemPrompt as [text |]; [| reflexivity].
      cbn. destruct (String.eqb text ""); reflexivity. }
    unfold exchange, requestUrl, requestOptions, requestBody.
    subst sent address authorised.
    destruct (family this); [| contradiction |]; rewrite Hbody; cbn;
      [| destruct (truthyStr (apiKey this))]; reflexivity. }
  subst r. unfold call. cbn [settled before after]. rewrite <- Hsent.
  split; [apply makeRequest_attempts |]. split.
  - apply makeRequest_first_attempt.
  - intros message Hthrew.
    rewrite (makeRequest_threw _ _ _ _ _ _ _ _ Hthrew). split; reflexivity.
Qed.

Lemma chat_request_witness :
  Forall (eq {| protocol := Http;
                url := "http://localhost:11434/v1/chat/completions";
                options :=
                  {| method := "POST";
                     headers := [("Content-Type", Defined "application/json")] |};
                written :=
                  WrittenJSON
                    (VObj [("model", VStr "llama2");
                           ("messages",
                            VArr [VObj [("role", VStr "system");
                                        ("content", VStr "be brief")];
                                  VObj [("role", VStr "user");
                                        ("content", VStr "hello")]]);
                           ("temperature", VNum (7 # 10));
                           ("max_tokens", VNum 2000)]) |})
    (attempts
       (before (call Sample.parse Scenario.localProvider Scenario.refused "hello"
                  (Some "be brief"))
        ++ after (call Sample.parse Scenario.localProvider Scenario.refused "hello"
                    (Some "be brief")))).
Proof.
  exact (proj1 (chat_request Sample.parse Scenario.localProvider Scenario.refused
                  "hello" (Some "be brief") ltac:(discriminate))).
Defined.

(** X14. The text of a well-formed answer is returned as it is,
    whatever else the response carries: for OpenAI and local providers
    the [content] of the [message] of the first choice, for Claude the
    [text] of the first content block, when that value is truthy. *)
Theorem responseText_found (f : Family) (fields first rest_ : list (string * Value))
    (more : list Value) (text : Value) :
  truthy text = true ->
  match f with
  | Claude =>
      lookup fields "content" = VArr (VObj first :: more)
      /\ lookup first "text" = text
  | _ =>
      lookup fields "choices" = VArr (VObj first :: more)
      /\ lookup first "message" = VObj rest_
      /\ lookup rest_ "content" = text
  end ->
  responseText f (VObj fields) = Return text.
Proof.
  intros Htruthy Hshape. unfold responseText, or.
  destruct f; cbn [get JS.first bind getOpt].
  - destruct Hshape as (Hlist & Hmessage & Hcontent).
    rewrite Hlist. cbn [JS.first bind getOpt]. rewrite Hmessage. cbn [getOpt].
    rewrite Hcontent, Htruthy. reflexivity.
  - destruct Hshape as (Hlist & Htext).
    rewrite Hlist. cbn [JS.first bind getOpt]. rewrite Htext, Htruthy. reflexivity.
  - destruct Hshape as (Hlist & Hmessage & Hcontent).
    rewrite Hlist. cbn [JS.first bind getOpt]. rewrite Hmessage. cbn [getOpt].
    rewrite Hcontent, Htruthy. cbv iota. rewrite Htruthy. reflexivity.
Qed.

Lemma responseText_found_witness :
  responseText OpenAI Scenario.completion = Return (VStr "hello").
Proof.
  apply (responseText_found OpenAI
           [("id", VStr "chatcmpl-1");
            ("choices",
             VArr [VObj [("index", VNum 0);
                         ("message", VObj [("role", VStr "assistant");
                                           ("content", VStr "hello")])]])]
           [("index", VNum 0);
            ("message", VObj [("role", VStr "assistant"); ("content", VStr "hello")])]
           [("role", VStr "assistant"); ("content", VStr "hello")]
           [] (VStr "hello")); [reflexivity | repeat split; reflexivity].
Defined.

(** X15. The local provider's fallback: when [choices] is an array
    whose first element gives no truthy [message.content] (the array is
    empty, say), a truthy top-level [content] is returned instead. *)
Theorem responseText_local_fallback (fields : list (string * Value))
    (items : list Value) (content : Value) :
  lookup fields "choices" = VArr items ->
  truthy (getOpt (getOpt (match items with
                          | choice :: _ => choice
                          | [] => VUndefined
                          end) "message") "content") = false ->
  lookup fields "content" = content ->
  truthy content = true ->
  responseText Local (VObj fields) = Return content.
Proof.
  intros Hchoices Hnone Hcontent Htruthy.
  unfold responseText, or. cbn [get JS.first bind getOpt].
  rewrite Hchoices. cbn [JS.first bind]. rewrite Hnone, Hcontent, Htruthy.
  reflexivity.
Qed.

Lemma responseText_local_fallback_witness :
  responseText Local (VObj [("choices", VArr []); ("content", VStr "plain")])
  = Return (VStr "plain").
Proof.
  exact (responseText_local_fallback [("choices", VArr []); ("content", VStr "plain")]
           [] (VStr "plain") eq_refl eq_refl eq_refl eq_refl).
Defined.

(** X16. A 2xx answer whose body is not JSON resolves [makeRequest]
    with the body as a string, and every provider's [call] then
    rejects: a string has neither [choices] nor [content], and reading
    [[0]] of [undefined] throws. *)
Theorem non_json_body_rejected (JSON_parse : string -> option Value) (this : Provider)
    (backend : nat -> Outcome) (prompt : string) (systemPrompt : option string)
    (statusCode : Z) (statusMessage : string) (hint : option string) (data : string) :
  backend 0%nat = Responded statusCode statusMessage hint data ->
  200 <= statusCode < 300 ->
  JSON_parse data = None ->
  settled (makeRequest JSON_parse backend (requestUrl this) (requestOptions this)
             (requestBody this prompt systemPrompt) (maxRetries this) (timeout this))
  = Resolved (VStr data)
  /\ settled (call JSON_parse this backend prompt systemPrompt)
     = Rejected (errorPrefix (family this)
                   ++ "Cannot read properties of undefined (reading '0')").
Proof.
  intros Hout Hrange Hparse. unfold call.
  rewrite (makeRequest_success _ _ _ _ _ _ _ _ _ _ _ Hout Hrange), Hparse.
  split; [reflexivity |]. cbn [settled].
  destruct (family this); reflexivity.
Qed.

Lemma non_json_body_rejected_witness :
  settled (call Sample.parse Sample.openaiProvider Scenario.htmlPage "hello" None)
  = Rejected "OpenAI API error: Cannot read properties of undefined (reading '0')".
Proof.
  exact (proj2 (non_json_body_rejected Sample.parse Sample.openaiProvider
                  Scenario.htmlPage "hello" None 200 "OK" None
                  "<html>maintenance</html>" eq_refl ltac:(lia) eq_refl)).
Defined.

(** X17. Every rejection of a provider's [call] names the provider:
    its message is the provider's prefix followed by the transport's or
    the reader's message; and when [callAI] gets a provider from the
    factory, it rejects with exactly that message. *)
Theorem call_errors_name_provider (JSON_parse : string -> option Value)
    (config : Config.t) (this : Provider) (backend : nat -> Outcome) (prompt : string)
    (systemPrompt : option string) (failure : string) :
  snd (createAIProvider config) = Return this ->
  settled (callAI JSON_parse config backend prompt systemPrompt) = Rejected failure ->
  settled (call JSON_parse this backend prompt systemPrompt) = Rejected failure
  /\ exists detail, failure = errorPrefix (family this) ++ detail.
Proof.
  intros Hfactory Hrejected. unfold callAI in Hrejected.
  destruct (createAIProvider config) as [lines [made | thrown]];
    cbn in Hfactory; [| discriminate].
  injection Hfactory as ->. cbn [settled] in Hrejected.
  split; [exact Hrejected |].
  unfold call in Hrejected. cbn [settled] in Hrejected.
  destruct (settled (makeRequest _ _ _ _ _ _ _)) as [response | m].
  - destruct (responseText (family this) response) as [text | m];
      [discriminate | injection Hrejected as <-; eexists; reflexivity].
  - injection Hrejected as <-. eexists; reflexivity.
Qed.

Lemma call_errors_name_provider_witness :
  exists detail,
    "OpenAI API error: API request failed: 404 Not Found"
      ++ String (ascii_of_nat 10) "no such model"
    = errorPrefix OpenAI ++ detail.
Proof.
  exact (proj2 (call_errors_name_provider Sample.parse Sample.openai
                  Sample.openaiProvider (Sample.always Sample.notFound) "hello" None
                  _ eq_refl eq_refl)).
Defined.

(** ** Redaction and base URLs *)

Lemma append_length (a b : string) :
  String.length (a ++ b) = (String.length a + String.length b)%nat.
Proof.
  induction a as [| c a IH]; [reflexivity | cbn; rewrite IH; reflexivity].
Qed.

(** X18. The masked key is 3 characters long for a key of at most 8
    characters (or a missing one) and 11 characters long otherwise: its
    length tells nothing about the key beyond that threshold. *)
Theorem maskApiKey_length (apiKey : Nullable string) :
  String.length (maskApiKey apiKey)
  = match apiKey with
    | Defined key => if (8 <? String.length key)%nat then 11%nat else 3%nat
    | _ => 3%nat
    end.
Proof.
  destruct apiKey as [| | key]; [reflexivity | reflexivity |].
  destruct (8 <? String.length key)%nat eqn:Hlong.
  - apply Nat.ltb_lt in Hlong. rewrite (maskApiKey_long key Hlong).
    rewrite !append_length, !substring_length by lia. reflexivity.
  - apply Nat.ltb_ge in Hlong. unfold maskApiKey.
    replace (Z.of_nat (String.length key) <=? 8) with true by lia.
    rewrite orb_true_r. reflexivity.
Qed.

Lemma stripTrailingSlash_slash (t : string) : stripTrailingSlash (t ++ "/") = t.
Proof.
  induction t as [| c t IH]; [reflexivity |].
  cbn [append stripTrailingSlash]. rewrite IH.
  destruct t; reflexivity.
Qed.

Lemma stripTrailingSlash_other (s : string) :
  ~ endsWithSlash s -> stripTrailingSlash s = s.
Proof.
  induction s as [| c s IH]; intros Hnone; [reflexivity |].
  destruct s as [| d s].
  - cbn. destruct (Ascii.eqb_spec c "/") as [-> | Hother]; [| reflexivity].
    exfalso. apply Hnone. exists "". reflexivity.
  - change (stripTrailingSlash (String c (String d s)))
      with (String c (stripTrailingSlash (String d s))).
    rewrite IH; [reflexivity |].
    intros [t Ht]. apply Hnone. exists (String c t). cbn. rewrite Ht. reflexivity.
Qed.

Lemma endsWithSlash_cons (c : ascii) (s : string) :
  endsWithSlash (String c s) -> s <> "" -> endsWithSlash s.
Proof.
  intros [[| d t] Ht] Hrest; cbn in Ht; injection Ht as _ Hs.
  - contradiction.
  - exists t. exact Hs.
Qed.

(** X19. A provider's base URL loses exactly one trailing slash: for
    a URL [t] that does not end with a slash, [t] and [t/] both give
    [t], while [t//] gives [t/]. The three constructors store the URL
    that way, so [t] and [t/] lead to the same request URL. *)
Theorem baseUrl_trailing_slash (t : string) (key : Nullable string) :
  ~ endsWithSlash t ->
  stripTrailingSlash t = t
  /\ stripTrailingSlash (t ++ "/") = t
  /\ stripTrailingSlash (t ++ "//") = t ++ "/"
  /\ requestUrl (OpenAIProvider key (Some (t ++ "/")) None None None)
     = t ++ "/chat/completions"
  /\ requestUrl (ClaudeProvider key (Some (t ++ "/")) None None None)
     = t ++ "/v1/messages"
  /\ requestUrl (LocalProvider key (t ++ "/") None None None)
     = t ++ "/chat/completions".
Proof.
  intros Hnone.
  assert (Hdouble : t ++ "//" = (t ++ "/") ++ "/").
  { induction t as [| c t IH]; [reflexivity |].
    cbn. rewrite IH; [reflexivity |].
    intros [u Hu]. apply Hnone. exists (String c u). cbn. rewrite Hu. reflexivity. }
  split; [exact (stripTrailingSlash_other t Hnone) |].
  split; [exact (stripTrailingSlash_slash t) |].
  split; [rewrite Hdouble; exact (stripTrailingSlash_slash (t ++ "/")) |].
  unfold requestUrl, OpenAIProvider, ClaudeProvider, LocalProvider.
  cbn [family baseUrl defaultTo]. rewrite stripTrailingSlash_slash.
  repeat split.
Qed.

Lemma baseUrl_trailing_slash_witness :
  stripTrailingSlash "http://localhost:11434/v1//" = "http://localhost:11434/v1/"
  /\ requestUrl (LocalProvider Undefined "http://localhost:11434/v1/" None None None)
     = "http://localhost:11434/v1/chat/completions".
Proof.
  assert (Hnone : ~ endsWithSlash "http://localhost:11434/v1").
  { intros Hends.
    repeat (apply endsWithSlash_cons in Hends; [| discriminate]).
    destruct Hends as [[| d [| e u]] Hu]; discriminate Hu. }
  destruct (baseUrl_trailing_slash "http://localhost:11434/v1" Undefined Hnone)
    as (_ & _ & Hdouble & _ & _ & Hlocal).
  split; [exact Hdouble | exact Hlocal].
Defined.

(** * The callers' reading of the response *)

(** ** Searching in a string *)

Lemma prefix_append (a b : string) : String.prefix a (a ++ b) = true.
Proof.
  induction a as [| c a IH]; [destruct b; reflexivity |].
  cbn. destruct (ascii_dec c c) as [_ | Hne]; [exact IH | contradiction].
Qed.

Lemma prefix_split (a t : string) :
  String.prefix a t = true -> exists b, t = a ++ b.
Proof.
  revert t. induction a as [| c a IH]; intros t Hprefix.
  - exists t. reflexivity.
  - destruct t as [| d t]; [discriminate Hprefix |].
    cbn in Hprefix. destruct (ascii_dec c d) as [-> | Hne]; [| discriminate].
    destruct (IH t Hprefix) as [b ->]. exists b. reflexivity.
Qed.

Lemma append_assoc (a b c : string) : (a ++ b) ++ c = a ++ b ++ c.
Proof.
  induction a as [| x a IH]; [reflexivity | cbn; rewrite IH; reflexivity].
Qed.

Lemma append_nil_r (a : string) : a ++ "" = a.
Proof.
  induction a as [| x a IH]; [reflexivity | cbn; rewrite IH; reflexivity].
Qed.

Lemma drop_append (a b : string) : Text.drop (String.length a) (a ++ b) = b.
Proof.
  induction a as [| x a IH]; [destruct b; reflexivity | exact IH].
Qed.

Lemma drop_all (text : string) (k : nat) :
  (String.length text <= k)%nat -> Text.drop k text = "".
Proof.
  revert k. induction text as [| c text IH]; intros k Hk; [destruct k; reflexivity |].
  destruct k as [| k]; [cbn in Hk; lia |].
  cbn. apply IH. cbn in Hk. lia.
Qed.

Lemma drop_occurs (search text : string) (k : nat) :
  occursIn search (Text.drop k text) -> occursIn search text.
Proof.
  revert text. induction k as [| k IH]; intros text Hin; [exact Hin |].
  destruct text as [| c text]; [exact Hin |].
  destruct (IH text Hin) as (pre & post & ->).
  exists (String c pre), post. reflexivity.
Qed.

(** [scan] finds the first occurrence: it answers [-1] exactly when
    there is none, and otherwise the offset of a place where [search]
    starts, none of the earlier places being one. *)
Lemma scan_none (search text : string) (at_ : Z) :
  0 <= at_ ->
  (Text.scan search text at_ = -1 <-> ~ occursIn search text).
Proof.
  revert at_. induction text as [| c text IH]; intros at_ Hat.
  - cbn [Text.scan]. destruct (String.prefix search "") eqn:Hprefix.
    + split; [lia |]. intros Hnone. exfalso. apply Hnone.
      destruct (prefix_split _ _ Hprefix) as [b Hb]. exists "", b. exact Hb.
    + split; [| reflexivity]. intros _ (pre & post & Heq).
      destruct pre; [| discriminate Heq]. cbn in Heq.
      rewrite Heq, prefix_append in Hprefix. discriminate.
  - cbn [Text.scan]. destruct (String.prefix search (String c text)) eqn:Hprefix.
    + split; [lia |]. intros Hnone. exfalso. apply Hnone.
      destruct (prefix_split _ _ Hprefix) as [b Hb]. exists "", b. exact Hb.
    + rewrite (IH (at_ + 1)) by lia. split.
      * intros Hnone (pre & post & Heq). destruct pre as [| d pre].
        -- cbn in Heq. rewrite Heq, prefix_append in Hprefix. discriminate.
        -- injection Heq as _ Heq. apply Hnone. exists pre, post. exact Heq.
      * intros Hnone (pre & post & Heq). apply Hnone.
        exists (String c pre), post. rewrite Heq. reflexivity.
Qed.

Lemma scan_found (search text : string) (at_ : Z) :
  Text.scan search text at_ <> -1 ->
  0 <= at_ ->
  exists pre post,
    text = pre ++ search ++ post
    /\ Text.scan search text at_ = at_ + Z.of_nat (String.length pre).
Proof.
  revert at_. induction text as [| c text IH]; intros at_ Hfound Hat.
  - cbn [Text.scan] in *. destruct (String.prefix search "") eqn:Hprefix; [| contradiction].
    destruct (prefix_split _ _ Hprefix) as [b Hb]. exists "", b.
    split; [exact Hb | cbn; lia].
  - cbn [Text.scan] in *.
    destruct (String.prefix search (String c text)) eqn:Hprefix.
    + destruct (prefix_split _ _ Hprefix) as [b Hb]. exists "", b.
      split; [exact Hb | cbn; lia].
    + destruct (IH (at_ + 1) Hfound) as (pre & post & -> & Hscan); [lia |].
      exists (String c pre), post. split; [reflexivity |].
      rewrite Hscan. cbn [String.length]. lia.
Qed.

Lemma indexOf_start (text search : string) :
  Text.indexOf text search 0 = Text.scan search text 0.
Proof.
  unfold Text.indexOf, clamp.
  replace (Z.max 0 (Z.min 0 (Z.of_nat (String.length text)))) with 0 by lia.
  reflexivity.
Qed.

Lemma indexOf_none (text search : string) (from : Z) :
  ~ occursIn search text -> Text.indexOf text search from = -1.
Proof.
  intros Hnone. unfold Text.indexOf. apply scan_none.
  - unfold clamp. lia.
  - intros Hin. apply Hnone. exact (drop_occurs _ _ _ Hin).
Qed.

Lemma substring_whole (text : string) :
  String.substring 0 (String.length text) text = text.
Proof.
  induction text as [| c text IH]; [reflexivity | cbn; rewrite IH; reflexivity].
Qed.

Lemma substring_nothing (text : string) (n : nat) : String.substring n 0 text = "".
Proof.
  revert n. induction text as [| c text IH]; intros n; destruct n; cbn; auto.
Qed.

(** X20. [extractSection] answers [null] exactly when the start
    header does not occur in the text. *)
Theorem extractSection_null (text startHeader : string) (endHeader : option string) :
  extractSection text startHeader endHeader = None <-> ~ occursIn startHeader text.
Proof.
  unfold extractSection. rewrite indexOf_start.
  pose proof (scan_none startHeader text 0 ltac:(lia)) as Hscan.
  destruct (Text.scan startHeader text 0 =? -1) eqn:Hfound.
  - apply Z.eqb_eq in Hfound. split; [intros _; apply Hscan; exact Hfound | reflexivity].
  - apply Z.eqb_neq in Hfound. split; [discriminate |].
    intros Hnone. apply Hscan in Hnone. contradiction.
Qed.

(** X21. In a text without line break the header line is not skipped:
    when the start header occurs, the section is taken from the start
    of the text. It is the whole text, trimmed, when no end header is
    asked for or found, and empty when the end header is found. *)
Theorem extractSection_single_line (text startHeader : string)
    (endHeader : option string) :
  ~ occursIn (String Text.newline "") text ->
  occursIn startHeader text ->
  extractSection text startHeader endHeader
  = Some match endHeader with
         | Some header =>
             if (String.eqb header "" || (Text.indexOf text header 0 =? -1))%bool
             then Text.trim text
             else ""
         | None => Text.trim text
         end.
Proof.
  intros Hflat Hstart. unfold extractSection. rewrite indexOf_start.
  destruct (Text.scan startHeader text 0 =? -1) eqn:Hfound.
  { apply Z.eqb_eq in Hfound. apply scan_none in Hfound; [contradiction | lia]. }
  rewrite (indexOf_none text _ _ Hflat). change (-1 + 1) with 0.
  assert (Hwhole : substring text 0 (Some (Z.of_nat (String.length text))) = text).
  { unfold substring, clamp.
    replace (Z.min (Z.max 0 (Z.min 0 (Z.of_nat (String.length text))))
               (Z.max 0 (Z.min (Z.of_nat (String.length text))
                           (Z.of_nat (String.length text))))) with 0 by lia.
    replace (Z.max (Z.max 0 (Z.min 0 (Z.of_nat (String.length text))))
               (Z.max 0 (Z.min (Z.of_nat (String.length text))
                           (Z.of_nat (String.length text)))))
      with (Z.of_nat (String.length text)) by lia.
    rewrite Z.sub_0_r, Nat2Z.id. apply substring_whole. }
  destruct endHeader as [header |]; [| rewrite Hwhole; reflexivity].
  destruct header as [| h header]; [cbn; rewrite Hwhole; reflexivity |].
  cbn [truthyOpt String.eqb negb orb].
  destruct (Text.indexOf text (String h header) 0 =? -1) eqn:Hend;
    cbn [negb]; [rewrite Hwhole; reflexivity |].
  assert (Hback : Text.lastIndexOf text (String Text.newline "")
                    (Text.indexOf text (String h header) 0) = -1).
  { unfold Text.lastIndexOf.
    destruct (_ <? 0); [reflexivity |].
    match goal with |- Text.scanBack _ _ ?k = _ => generalize k end.
    intros k. induction k as [| k IH]; cbn [Text.scanBack].
    - destruct (String.prefix _ (Text.drop 0 text)) eqn:Hprefix; [| reflexivity].
      exfalso. apply Hflat. destruct (prefix_split _ _ Hprefix) as [b Hb].
      exists "", b. exact Hb.
    - destruct (String.prefix _ (Text.drop (S k) text)) eqn:Hprefix; [| exact IH].
      exfalso. apply Hflat. apply (drop_occurs _ _ (S k)).
      destruct (prefix_split _ _ Hprefix) as [b Hb]. exists "", b. exact Hb. }
  rewrite Hback. f_equal. unfold substring, clamp.
  replace (Z.min (Z.max 0 (Z.min 0 (Z.of_nat (String.length text))))
             (Z.max 0 (Z.min (-1) (Z.of_nat (String.length text))))) with 0 by lia.
  replace (Z.max (Z.max 0 (Z.min 0 (Z.of_nat (String.length text))))
             (Z.max 0 (Z.min (-1) (Z.of_nat (String.length text))))) with 0 by lia.
  cbn [Z.sub Z.to_nat Z.opp Z.add]. rewrite substring_nothing. reflexivity.
Qed.

(** ** Sections between headers *)

Lemma prefix_char (c x : ascii) (t : string) :
  String.prefix (String c "") (String x t) = if ascii_dec c x then true else false.
Proof.
  cbn [String.prefix]. destruct (ascii_dec c x); [destruct t |]; reflexivity.
Qed.


Lemma scan_shift (search text : string) (at_ : Z) :
  Text.scan search text at_
  = if Text.scan search text 0 =? -1 then -1 else at_ + Text.scan search text 0.
Proof.
  revert at_. induction text as [| c text IH]; intros at_; cbn [Text.scan].
  - destruct (String.prefix search ""); cbn; [lia | reflexivity].
  - destruct (String.prefix search (String c text)); [cbn; lia |].
    rewrite (IH (at_ + 1)), (IH (0 + 1)).
    destruct (Text.scan search text 0 =? -1) eqn:Hnone; [reflexivity |].
    apply Z.eqb_neq in Hnone.
    destruct (scan_found search text 0 Hnone ltac:(lia)) as (pre & post & _ & Hpos).
    destruct (0 + 1 + Text.scan search text 0 =? -1) eqn:Habs; [lia | lia].
Qed.

Lemma scan_char (c : ascii) (a rest : string) :
  ~ occursIn (String c "") a ->
  Text.scan (String c "") (a ++ String c rest) 0 = Z.of_nat (String.length a).
Proof.
  induction a as [| d a IH]; intros Hnone.
  - cbn. destruct (ascii_dec c c) as [_ | Hne]; [| contradiction].
    destruct rest; reflexivity.
  - cbn [append Text.scan String.prefix].
    destruct (ascii_dec c d) as [-> | Hne].
    + exfalso. apply Hnone. exists "", a. reflexivity.
    + rewrite scan_shift, IH.
      * destruct (Z.of_nat (String.length a) =? -1) eqn:Habs; [lia |].
        cbn [String.length]. lia.
      * intros (pre & post & Heq). apply Hnone.
        exists (String d pre), post. rewrite Heq. reflexivity.
Qed.

Lemma indexOf_at (a b search : string) :
  Text.indexOf (a ++ b) search (Z.of_nat (String.length a))
  = Text.scan search b (Z.of_nat (String.length a)).
Proof.
  unfold Text.indexOf, clamp. rewrite append_length.
  replace (Z.max 0 (Z.min (Z.of_nat (String.length a))
                      (Z.of_nat (String.length a + String.length b))))
    with (Z.of_nat (String.length a)) by lia.
  rewrite Nat2Z.id, drop_append. reflexivity.
Qed.

Lemma substring_middle (a b c : string) :
  String.substring (String.length a) (String.length b) (a ++ b ++ c) = b.
Proof.
  induction a as [| x a IH]; [| exact IH].
  cbn [String.length append]. revert c.
  induction b as [| y b IHb]; intros c; [apply substring_nothing |].
  cbn. rewrite IHb. reflexivity.
Qed.

Lemma scanBack_skip (text : string) (a m r : string) (j : nat) :
  text = a ++ (String Text.newline "") ++ m ++ r ->
  ~ occursIn (String Text.newline "") m ->
  (j < String.length m)%nat ->
  Text.scanBack (String Text.newline "") text (String.length a + 1 + j) = Z.of_nat (String.length a).
Proof.
  intros -> Hnone. induction j as [| j IH]; intros Hj.
  - assert (Hhere : String.prefix (String Text.newline "") (Text.drop (String.length a + 1 + 0) (a ++ (String Text.newline "") ++ m ++ r))
                    = false).
    { replace (String.length a + 1 + 0)%nat with (String.length (a ++ (String Text.newline ""))) by
          (rewrite append_length; cbn; lia).
      rewrite <- append_assoc, drop_append.
      destruct m as [| x m]; [cbn in Hj; lia |].
      cbn [append]. rewrite prefix_char.
      destruct (ascii_dec Text.newline x) as [<- | Hne]; [| reflexivity].
      exfalso. apply Hnone. exists "", m. reflexivity. }
    replace (String.length a + 1 + 0)%nat with (S (String.length a)) in * by lia.
    cbn [Text.scanBack]. rewrite Hhere.
    assert (Hthere : String.prefix (String Text.newline "") (Text.drop (String.length a) (a ++ (String Text.newline "") ++ m ++ r)) = true).
    { rewrite drop_append. apply prefix_append. }
    destruct (String.length a); cbn [Text.scanBack]; rewrite Hthere; reflexivity.
  - replace (String.length a + 1 + S j)%nat with (S (String.length a + 1 + j)) by lia.
    cbn [Text.scanBack].
    assert (Hhere : String.prefix (String Text.newline "") (Text.drop (S (String.length a + 1 + j)) (a ++ (String Text.newline "") ++ m ++ r))
                    = false).
    { destruct (String.prefix (String Text.newline "") _) eqn:Hprefix; [| reflexivity].
      exfalso.
      replace (S (String.length a + 1 + j)) with (String.length (a ++ (String Text.newline "")) + S j)%nat in Hprefix
        by (rewrite append_length; cbn; lia).
      rewrite <- append_assoc in Hprefix.
      assert (Hdrop : forall u v k, Text.drop (String.length u + k) (u ++ v) = Text.drop k v).
      { intros u v k. induction u as [| x u IHu]; [reflexivity | exact IHu]. }
      rewrite Hdrop in Hprefix.
      assert (Hin : forall k mm, (k < String.length mm)%nat ->
                 String.prefix (String Text.newline "") (Text.drop k (mm ++ r)) = true -> occursIn (String Text.newline "") mm).
      { intros k. induction k as [| k IHk]; intros mm Hk Hp.
        - destruct mm as [| x mm]; [cbn in Hk; lia |].
          cbn [append Text.drop] in Hp. rewrite prefix_char in Hp.
          destruct (ascii_dec Text.newline x) as [<- | Hne]; [| discriminate].
          exists "", mm. reflexivity.
        - destruct mm as [| x mm]; [cbn in Hk; lia |].
          cbn [append Text.drop] in Hp. destruct (IHk mm) as (p & q & ->); [cbn in Hk; lia | exact Hp |].
          exists (String x p), q. reflexivity. }
      apply Hnone. apply (Hin (S j) m Hj Hprefix). }
    rewrite Hhere. apply IH. lia.
Qed.

Lemma occurs_char_snoc (c x : ascii) (m : string) :
  occursIn (String c "") (m ++ String x "") -> c <> x -> occursIn (String c "") m.
Proof.
  induction m as [| y m IH]; intros (p & q & Heq) Hne.
  - destruct p as [| z p]; cbn in Heq.
    + injection Heq as Hx _. congruence.
    + injection Heq as _ Heq. destruct p; discriminate Heq.
  - destruct p as [| z p]; cbn in Heq.
    + injection Heq as <- _. exists "", m. reflexivity.
    + injection Heq as _ Heq. destruct IH as (p' & q' & ->); [exists p, q; exact Heq | exact Hne |].
      exists (String y p'), q'. reflexivity.
Qed.

(** X22. The intended layout: the start header on one line, the body
    on the lines after it, and the end header on the line after the
    body. When the header line holds the first occurrence of the start
    header and the end header first occurs, from the body on, in the
    line after the body, the section is the body, trimmed. *)
Theorem extractSection_between (pre header tail body lead stop post : string) (c : ascii) :
  let text :=
    pre ++ header ++ tail ++ (String Text.newline "") ++ body ++ (String Text.newline "") ++ lead ++ String c stop ++ post in
  let start := (String.length pre + String.length header + String.length tail + 1)%nat in
  Text.indexOf text header 0 = Z.of_nat (String.length pre) ->
  ~ occursIn (String Text.newline "") (header ++ tail) ->
  Text.indexOf text (String c stop) (Z.of_nat start)
  = Z.of_nat (start + String.length body + 1 + String.length lead) ->
  ~ occursIn (String Text.newline "") lead ->
  c <> Text.newline ->
  extractSection text header (Some (String c stop)) = Some (Text.trim body).
Proof.
  intros text start Hheader Hline Hstop Hlead Hc.
  assert (Hstart : start
                   = (String.length pre + String.length header + String.length tail + 1)%nat)
    by reflexivity.
  clearbody start.
  unfold extractSection. fold text. rewrite Hheader.
  replace (Z.of_nat (String.length pre) =? -1) with false
    by (symmetry; apply Z.eqb_neq; lia).
  assert (Hnl : Text.indexOf text (String Text.newline "") (Z.of_nat (String.length pre)) + 1 = Z.of_nat start).
  { subst text. rewrite indexOf_at.
    replace (header ++ tail ++ (String Text.newline "") ++ body ++ (String Text.newline "") ++ lead ++ String c stop ++ post)
      with ((header ++ tail) ++ String Text.newline (body ++ (String Text.newline "") ++ lead ++ String c stop ++ post))
      by (rewrite append_assoc; reflexivity).
    rewrite scan_shift, (scan_char _ _ _ Hline).
    replace (Z.of_nat (String.length (header ++ tail)) =? -1) with false
      by (symmetry; apply Z.eqb_neq; lia).
    rewrite append_length. lia. }
  rewrite Hnl. cbn [truthyOpt String.eqb negb]. rewrite Hstop.
  replace (Z.of_nat (start + String.length body + 1 + String.length lead) =? -1)
    with false by (symmetry; apply Z.eqb_neq; lia).
  cbn [negb].
  set (a := pre ++ header ++ tail ++ (String Text.newline "") ++ body).
  assert (Ha : String.length a = (start + String.length body)%nat).
  { subst a. rewrite !append_length. cbn [String.length]. lia. }
  assert (Htext : text = a ++ (String Text.newline "") ++ (lead ++ String c "") ++ (stop ++ post)).
  { subst text a. rewrite !append_assoc. reflexivity. }
  assert (Hback : Text.lastIndexOf text (String Text.newline "")
                    (Z.of_nat (start + String.length body + 1 + String.length lead))
                  = Z.of_nat (String.length a)).
  { unfold Text.lastIndexOf.
    assert (Hlen : (String.length text
                    = String.length a + 1 + (String.length lead + 1)
                      + String.length (stop ++ post))%nat).
    { rewrite Htext, !append_length. cbn [String.length]. lia. }
    replace (Z.min (Z.max (Z.of_nat (start + String.length body + 1 + String.length lead)) 0)
               (Z.of_nat (String.length text) - Z.of_nat (String.length (String Text.newline ""))))
      with (Z.of_nat (String.length a + 1 + String.length lead))
      by (rewrite Hlen, Ha; cbn [String.length]; lia).
    replace (Z.of_nat (String.length a + 1 + String.length lead) <? 0) with false
      by (symmetry; apply Z.ltb_ge; lia).
    rewrite Nat2Z.id.
    apply (scanBack_skip text a (lead ++ String c "") (stop ++ post)).
    - exact Htext.
    - intros Hin. apply Hlead. apply (occurs_char_snoc _ c); [exact Hin | congruence].
    - rewrite append_length. cbn. lia. }
  rewrite Hback, Ha. f_equal. f_equal.
  unfold substring, clamp.
  assert (Hlen : (start + String.length body <= String.length text)%nat).
  { rewrite Htext, append_length, Ha. lia. }
  replace (Z.min (Z.max 0 (Z.min (Z.of_nat start) (Z.of_nat (String.length text))))
             (Z.max 0 (Z.min (Z.of_nat (start + String.length body))
                         (Z.of_nat (String.length text)))))
    with (Z.of_nat start) by lia.
  replace (Z.max (Z.max 0 (Z.min (Z.of_nat start) (Z.of_nat (String.length text))))
             (Z.max 0 (Z.min (Z.of_nat (start + String.length body))
                         (Z.of_nat (String.length text)))))
    with (Z.of_nat (start + String.length body)) by lia.
  replace (Z.of_nat (start + String.length body) - Z.of_nat start)
    with (Z.of_nat (String.length body)) by lia.
  rewrite !Nat2Z.id.
  replace start with (String.length (pre ++ header ++ tail ++ (String Text.newline "")))
    by (rewrite !append_length; cbn [String.length]; lia).
  subst text.
  replace (pre ++ header ++ tail ++ (String Text.newline "") ++ body ++ (String Text.newline "") ++ lead ++ String c stop ++ post)
    with ((pre ++ header ++ tail ++ (String Text.newline "")) ++ body ++ ((String Text.newline "") ++ lead ++ String c stop ++ post))
    by (rewrite !append_assoc; reflexivity).
  apply substring_middle.
Qed.

Lemma extractSection_between_witness :
  extractSection Scenario.report "Performance Assessment" (Some "Anomalies Detection")
  = Some "Healthy overall.".
Proof.
  apply (extractSection_between "## " "Performance Assessment" "" "Healthy overall."
           "## " "nomalies Detection" (String Text.newline "None.") "A"%char).
  - reflexivity.
  - apply (proj1 (scan_none _ _ 0 ltac:(lia))). reflexivity.
  - reflexivity.
  - apply (proj1 (scan_none _ _ 0 ltac:(lia))). reflexivity.
  - discriminate.
Defined.

Lemma extractSection_null_witness : ~ occursIn "Risk Assessment" Scenario.report.
Proof.
  exact (proj1 (extractSection_null Scenario.report "Risk Assessment" None) eq_refl).
Defined.

Lemma extractSection_single_line_witness :
  extractSection "Risk Assessment: low" "Assessment" None
  = Some "Risk Assessment: low".
Proof.
  apply (extractSection_single_line "Risk Assessment: low" "Assessment" None).
  - apply (proj1 (scan_none _ _ 0 ltac:(lia))). reflexivity.
  - exists "Risk ", ": low". reflexivity.
Defined.

(** ** Lines and the summary *)

Lemma lines_nonempty (s : string) : Text.lines s <> [].
Proof.
  destruct s as [| c s]; [discriminate |].
  cbn [Text.lines]. destruct (Ascii.eqb c Text.newline); [discriminate |].
  destruct (Text.lines s); discriminate.
Qed.

Lemma join_cons (part : string) (more : list string) :
  more <> [] ->
  Text.join (part :: more) = part ++ String Text.newline (Text.join more).
Proof.
  destruct more; [contradiction | reflexivity].
Qed.

Lemma join_char (c : ascii) (line : string) (more : list string) :
  Text.join (String c line :: more) = String c (Text.join (line :: more)).
Proof.
  destruct more; reflexivity.
Qed.

Lemma join_lines (s : string) : Text.join (Text.lines s) = s.
Proof.
  induction s as [| c s IH]; [reflexivity |].
  cbn [Text.lines]. destruct (Ascii.eqb_spec c Text.newline) as [-> | Hother].
  - rewrite join_cons by apply lines_nonempty. rewrite IH. reflexivity.
  - pose proof (lines_nonempty s) as Hlines.
    destruct (Text.lines s) as [| line more]; [contradiction |].
    rewrite join_char, IH. reflexivity.
Qed.

Lemma join_app (front back : list string) :
  front <> [] -> back <> [] ->
  Text.join (front ++ back) = Text.join front ++ String Text.newline (Text.join back).
Proof.
  induction front as [| part front IH]; intros Hfront Hback; [contradiction |].
  destruct front as [| next front].
  - cbn [app]. rewrite join_cons by exact Hback. reflexivity.
  - change ((part :: next :: front) ++ back)%list
      with (part :: ((next :: front) ++ back))%list.
    rewrite join_cons by discriminate.
    rewrite IH by (discriminate || exact Hback).
    rewrite (join_cons part (next :: front)) by discriminate.
    rewrite append_assoc. reflexivity.
Qed.

Lemma lines_append (a b : string) :
  Text.lines a = [a] ->
  Text.lines (a ++ String Text.newline b) = a :: Text.lines b.
Proof.
  induction a as [| c a IH]; intros Hone.
  - cbn [append Text.lines]. rewrite Ascii.eqb_refl. reflexivity.
  - cbn [append Text.lines] in *.
    destruct (Ascii.eqb c Text.newline); [discriminate Hone |].
    pose proof (lines_nonempty a) as Hlines.
    destruct (Text.lines a) as [| line more] eqn:Ha; [contradiction |].
    injection Hone as -> ->.
    rewrite IH by reflexivity. reflexivity.
Qed.

Lemma lines_single (s : string) :
  Forall (fun line => Text.lines line = [line]) (Text.lines s).
Proof.
  induction s as [| c s IH]; [repeat constructor |].
  cbn [Text.lines]. destruct (Ascii.eqb c Text.newline) eqn:Hc.
  - constructor; [reflexivity | exact IH].
  - pose proof (lines_nonempty s) as Hlines.
    destruct (Text.lines s) as [| line more]; [contradiction |].
    inversion IH as [| x l Hline Hmore]; subst.
    constructor; [| exact Hmore].
    cbn [Text.lines]. rewrite Hc, Hline. reflexivity.
Qed.

Lemma lines_join (parts : list string) :
  parts <> [] ->
  Forall (fun line => Text.lines line = [line]) parts ->
  Text.lines (Text.join parts) = parts.
Proof.
  induction parts as [| part parts IH]; intros Hsome Hall; [contradiction |].
  inversion Hall as [| x l Hpart Hrest]; subst.
  destruct parts as [| next parts]; [exact Hpart |].
  rewrite join_cons by discriminate.
  rewrite lines_append by exact Hpart.
  rewrite IH by (discriminate || exact Hrest). reflexivity.
Qed.

(** X23. The summary of [parseAIResponse] is the first five lines of
    the response: it is a prefix of the response, the whole response
    when that has at most five lines, and otherwise it stops right
    before the fifth line break. *)
Theorem summary_first_lines (response : string) :
  let short := summary (parseAIResponse response) in
  Text.lines short = firstn 5 (Text.lines response)
  /\ (exists rest, response = short ++ rest)
  /\ ((List.length (Text.lines response) <= 5)%nat -> short = response)
  /\ ((5 < List.length (Text.lines response))%nat ->
      exists rest, response = short ++ String Text.newline rest).
Proof.
  intros short. subst short. cbn [summary parseAIResponse].
  pose proof (lines_nonempty response) as Hsome.
  pose proof (lines_single response) as Hsingle.
  pose proof (join_lines response) as Hjoin.
  pose proof (firstn_skipn 5 (Text.lines response)) as Hsplit.
  assert (Hfront : firstn 5 (Text.lines response) <> []).
  { destruct (Text.lines response); [contradiction | discriminate]. }
  assert (Hshort : (List.length (Text.lines response) <= 5)%nat ->
                   Text.join (firstn 5 (Text.lines response)) = response).
  { intros Hfew. rewrite firstn_all2 by exact Hfew. exact Hjoin. }
  assert (Hlong : (5 < List.length (Text.lines response))%nat ->
                  exists rest,
                    response = Text.join (firstn 5 (Text.lines response))
                                 ++ String Text.newline rest).
  { intros Hmany. exists (Text.join (skipn 5 (Text.lines response))).
    rewrite <- join_app; [rewrite Hsplit; symmetry; exact Hjoin | exact Hfront |].
    intros Hnone. apply (f_equal (@List.length string)) in Hnone.
    rewrite List.length_skipn in Hnone. cbn in Hnone. lia. }
  split; [| split; [| split]].
  - apply lines_join; [exact Hfront |].
    rewrite <- Hsplit in Hsingle. apply Forall_app in Hsingle. apply Hsingle.
  - destruct (Nat.le_gt_cases (List.length (Text.lines response)) 5) as [Hfew | Hmany].
    + exists "". rewrite append_nil_r. symmetry. exact (Hshort Hfew).
    + destruct (Hlong Hmany) as [rest Hrest]. eexists. exact Hrest.
  - exact Hshort.
  - exact Hlong.
Qed.

Lemma summary_first_lines_witness :
  summary (parseAIResponse Scenario.report) = Scenario.report.
Proof.
  apply (proj1 (proj2 (proj2 (summary_first_lines Scenario.report)))).
  cbn. lia.
Defined.

(** * The YAML block of the answer *)

(** ** Trimming *)

Lemma trimStart_head (s : string) :
  Text.trim s = Text.trimEnd (trimStart s)
  /\ (trimStart s = "" \/ exists c r, trimStart s = String c r /\ isWhite c = false).
Proof.
  split; [reflexivity |].
  induction s as [| c s IH]; [left; reflexivity |].
  cbn [trimStart]. destruct (isWhite c) eqn:Hc; [exact IH |].
  right. exists c, s. split; [reflexivity | exact Hc].
Qed.

Lemma trimEnd_idempotent (s : string) : Text.trimEnd (Text.trimEnd s) = Text.trimEnd s.
Proof.
  induction s as [| c s IH]; [reflexivity |].
  cbn [Text.trimEnd]. destruct (Text.trimEnd s) as [| d kept] eqn:Hkept.
  - destruct (isWhite c) eqn:Hc; [reflexivity |].
    cbn [Text.trimEnd]. rewrite Hc. reflexivity.
  - change (Text.trimEnd (String c (String d kept)))
      with (match Text.trimEnd (String d kept) with
            | "" => if isWhite c then "" else String c ""
            | kept' => String c kept'
            end).
    rewrite IH. reflexivity.
Qed.

Lemma trimEnd_keeps_head (c : ascii) (r : string) :
  isWhite c = false -> exists r', Text.trimEnd (String c r) = String c r'.
Proof.
  intros Hc. cbn [Text.trimEnd]. destruct (Text.trimEnd r).
  - rewrite Hc. eexists; reflexivity.
  - eexists; reflexivity.
Qed.

Lemma trim_head (c : ascii) (r : string) :
  isWhite c = false -> Text.trim (String c r) = Text.trimEnd (String c r).
Proof.
  intros Hc. unfold Text.trim. cbn [trimStart]. rewrite Hc. reflexivity.
Qed.

Lemma trim_idempotent (s : string) : Text.trim (Text.trim s) = Text.trim s.
Proof.
  destruct (trimStart_head s) as [_ [Hempty | (c & r & Hhead & Hc)]].
  - unfold Text.trim. rewrite Hempty. reflexivity.
  - assert (Hinner : Text.trim s = Text.trimEnd (String c r))
      by (unfold Text.trim; rewrite Hhead; reflexivity).
    rewrite Hinner. destruct (trimEnd_keeps_head c r Hc) as [r' Hkept].
    rewrite Hkept at 1. rewrite (trim_head c r' Hc), <- Hkept.
    apply trimEnd_idempotent.
Qed.

(** ** The pattern of the YAML block *)

Lemma search_none (r : Regex.t) (s text : string) :
  ~ occursIn s text ->
  Regex.search (Regex.Seq (Regex.Lit s) r) text = None.
Proof.
  induction text as [| c text IH]; intros Hnone.
  - cbn [Regex.search Regex.run].
    destruct (String.prefix s "") eqn:Hprefix; [| reflexivity].
    exfalso. apply Hnone. destruct (prefix_split _ _ Hprefix) as [b Hb].
    exists "", b. exact Hb.
  - cbn [Regex.search Regex.run].
    destruct (String.prefix s (String c text)) eqn:Hprefix.
    + exfalso. apply Hnone. destruct (prefix_split _ _ Hprefix) as [b Hb].
      exists "", b. exact Hb.
    + apply IH. intros (pre & post & ->). apply Hnone.
      exists (String c pre), post. reflexivity.
Qed.

Lemma scan_before (s text : string) (n : nat) :
  Text.scan s text 0 = Z.of_nat n ->
  exists pre rest,
    text = pre ++ rest /\ String.length pre = n /\ String.prefix s rest = true
    /\ forall r, Regex.search (Regex.Seq (Regex.Lit s) r) text
                 = Regex.search (Regex.Seq (Regex.Lit s) r) rest.
Proof.
  revert n. induction text as [| c text IH]; intros n Hscan.
  - cbn [Text.scan] in Hscan. destruct (String.prefix s "") eqn:Hprefix; [| lia].
    exists "", "". split; [reflexivity |]. split; [cbn; lia |].
    split; [exact Hprefix | reflexivity].
  - cbn [Text.scan] in Hscan. destruct (String.prefix s (String c text)) eqn:Hprefix.
    + exists "", (String c text). split; [reflexivity |]. split; [cbn; lia |].
      split; [exact Hprefix | reflexivity].
    + rewrite scan_shift in Hscan.
      destruct (Text.scan s text 0 =? -1) eqn:Hnone; [lia |].
      apply Z.eqb_neq in Hnone.
      destruct (scan_found s text 0 Hnone ltac:(lia)) as (p & q & _ & Hpos).
      destruct (IH (String.length p)) as (pre & rest & -> & Hlen & Hrest & Hsearch); [lia |].
      exists (String c pre), rest. split; [reflexivity |].
      split; [cbn [String.length]; lia |]. split; [exact Hrest |].
      intros r. cbn [Regex.search Regex.run]. rewrite Hprefix.
      fold (Regex.search (Regex.Seq (Regex.Lit s) r) (pre ++ rest)). apply Hsearch.
Qed.

Lemma star_backtrack (A : Type) (gap : string) (b : ascii) (rest : string)
    (k : string -> option A) (a : A) :
  trimStart gap = "" ->
  isWhite b = false ->
  k (String b rest) = None ->
  k (String Text.newline (String b rest)) = Some a ->
  Regex.star A isWhite (gap ++ String Text.newline (String b rest)) k = Some a.
Proof.
  intros Hgap Hb Hfail Hok. induction gap as [| g gap IH].
  - cbn [append Regex.star].
    change (isWhite Text.newline) with true. cbv iota. rewrite Hb, Hfail. exact Hok.
  - cbn [trimStart] in Hgap. destruct (isWhite g) eqn:Hg; [| discriminate Hgap].
    cbn [append Regex.star]. rewrite Hg, (IH Hgap). reflexivity.
Qed.

Lemma lazyStar_scan (A : Type) (stop : string) (F : string -> A) (input : string) :
  forall n : nat,
    Text.scan stop input 0 = Z.of_nat n ->
    Regex.lazyStar A Regex.anyChar input
      (fun rest => if String.prefix stop rest then Some (F rest) else None)
    = Some (F (Text.drop n input)).
Proof.
  induction input as [| c input IH]; intros n Hscan.
  - cbn [Text.scan] in Hscan. cbn [Regex.lazyStar].
    destruct (String.prefix stop "") eqn:Hprefix; [| lia].
    destruct n; reflexivity.
  - cbn [Text.scan] in Hscan. cbn [Regex.lazyStar].
    destruct (String.prefix stop (String c input)) eqn:Hprefix.
    + replace n with 0%nat by lia. reflexivity.
    + rewrite scan_shift in Hscan.
      destruct (Text.scan stop input 0 =? -1) eqn:Hnone; [lia |].
      apply Z.eqb_neq in Hnone.
      destruct (scan_found stop input 0 Hnone ltac:(lia)) as (p & q & _ & Hpos).
      destruct n as [| n]; [lia |].
      cbn [Regex.anyChar Text.drop]. apply IH. lia.
Qed.

Lemma prefix_not_white (word gap rest : string) (w : ascii) (tail_ : string) :
  word = String w tail_ ->
  isWhite w = false ->
  trimStart gap = "" ->
  String.prefix word (gap ++ String Text.newline rest) = false.
Proof.
  intros -> Hw Hgap. destruct gap as [| g gap].
  - cbn [append String.prefix].
    destruct (ascii_dec w Text.newline) as [-> | Hne]; [discriminate Hw | reflexivity].
  - cbn [trimStart] in Hgap. destruct (isWhite g) eqn:Hg; [| discriminate Hgap].
    cbn [append String.prefix].
    destruct (ascii_dec w g) as [-> | Hne]; [congruence | reflexivity].
Qed.

Lemma append_inj_length (a b c d : string) :
  a ++ b = c ++ d -> String.length a = String.length c -> a = c /\ b = d.
Proof.
  revert c. induction a as [| x a IH]; intros c Heq Hlen.
  - destruct c; [split; [reflexivity | exact Heq] | discriminate Hlen].
  - destruct c as [| y c]; [discriminate Hlen |].
    injection Heq as -> Heq. injection Hlen as Hlen.
    destruct (IH c Heq Hlen) as [-> ->]. split; reflexivity.
Qed.

Lemma run_block (input : string) :
  Regex.run (option string)
    (Regex.Seq (Regex.Lit (String Text.newline ""))
       (Regex.Seq (Regex.Group (Regex.LazyStar Regex.anyChar))
          (Regex.Lit (String Text.newline "```"))))
    (String Text.newline input) None (fun _ group => Some group)
  = Regex.lazyStar (option string) Regex.anyChar input
      (fun rest =>
         if String.prefix (String Text.newline "```") rest
         then Some (Some (String.substring 0 (String.length input - String.length rest)
                            input))
         else None).
Proof.
  cbn [Regex.run]. rewrite prefix_char.
  destruct (ascii_dec Text.newline Text.newline) as [_ | Hne]; [| contradiction].
  reflexivity.
Qed.

(** What the pattern captures at an opening fence. *)
Lemma yamlBlock_at_fence (tagged : bool) (gap block post : string) (b : ascii)
    (body : string) :
  block = String b body ->
  trimStart gap = "" ->
  isWhite b = false ->
  Text.scan (String Text.newline "```") (block ++ String Text.newline "```" ++ post) 0
  = Z.of_nat (String.length block) ->
  Regex.run (option string) yamlBlockRegex
    ("```" ++ (if tagged then "yaml" else "") ++ gap
       ++ String Text.newline (block ++ String Text.newline "```" ++ post))
    None (fun _ group => Some group)
  = Some (Some block).
Proof.
  intros Hblock Hgap Hb Hclose.
  remember (block ++ String Text.newline "```" ++ post) as after eqn:Hafter.
  assert (Hhead : exists tail_, after = String b tail_).
  { rewrite Hafter, Hblock. eexists. reflexivity. }
  destruct Hhead as [tail_ Hhead].
  set (k := fun rest : string =>
              Regex.run (option string)
                (Regex.Seq (Regex.Lit (String Text.newline ""))
                   (Regex.Seq (Regex.Group (Regex.LazyStar Regex.anyChar))
                      (Regex.Lit (String Text.newline "```"))))
                rest None (fun _ group => Some group)).
  assert (Hstar : Regex.star (option string) isWhite (gap ++ String Text.newline after) k
                  = Some (Some block)).
  { rewrite Hhead. apply star_backtrack; [exact Hgap | exact Hb | |].
    - subst k. cbn [Regex.run]. rewrite prefix_char.
      destruct (ascii_dec Text.newline b) as [<- | Hne]; [discriminate Hb | reflexivity].
    - subst k. cbv beta. rewrite <- Hhead, run_block.
      rewrite (lazyStar_scan (option string) (String Text.newline "```")
                 (fun rest =>
                    Some (String.substring 0 (String.length after - String.length rest)
                            after))
                 after _ Hclose).
      rewrite Hafter, drop_append. do 2 f_equal.
      rewrite append_length.
      replace (String.length block + String.length (String Text.newline "```" ++ post)
               - String.length (String Text.newline "```" ++ post))%nat
        with (String.length block) by lia.
      apply (substring_middle "" block). }
  change yamlBlockRegex
    with (Regex.Seq (Regex.Lit "```")
            (Regex.Seq (Regex.Opt (Regex.Lit "yaml"))
               (Regex.Seq (Regex.Star isWhite)
                  (Regex.Seq (Regex.Lit (String Text.newline ""))
                     (Regex.Seq (Regex.Group (Regex.LazyStar Regex.anyChar))
                        (Regex.Lit (String Text.newline "```"))))))).
  cbn [Regex.run]. rewrite prefix_append, drop_append.
  destruct tagged.
  - rewrite prefix_append, drop_append.
    match goal with
    | |- match ?m with _ => _ end = _ =>
        replace m with (Some (Some block)) by (symmetry; exact Hstar)
    end.
    reflexivity.
  - cbn [append].
    rewrite (prefix_not_white "yaml" gap after "y" "aml" eq_refl eq_refl Hgap).
    exact Hstar.
Qed.

Lemma trimEnd_suffix (lead rest : string) :
  rest <> "" ->
  Text.trimEnd (lead ++ rest) = lead ++ rest ->
  Text.trimEnd rest = rest.
Proof.
  intros Hrest. induction lead as [| c lead IH]; intros Hfixed; [exact Hfixed |].
  apply IH. cbn [append Text.trimEnd] in Hfixed.
  destruct (Text.trimEnd (lead ++ rest)) as [| d kept] eqn:Hkept.
  - destruct (isWhite c); [discriminate Hfixed |].
    injection Hfixed as Hempty. destruct lead; [| discriminate Hempty].
    cbn in Hempty. congruence.
  - injection Hfixed as Hsame. exact Hsame.
Qed.

Lemma trim_fixed (s : string) : Text.trimEnd (Text.trim s) = Text.trim s.
Proof.
  unfold Text.trim. apply trimEnd_idempotent.
Qed.

(** X24. Without a code fence in the trimmed response, [extractYAML]
    keeps the response from the first [profiles:] on: text before it is
    dropped, text after the profile is not. When [profiles:] is absent
    or opens the response, the trimmed response is returned whole. *)
Theorem extractYAML_plain (response : string) :
  ~ occursIn "```" (Text.trim response) ->
  (Text.indexOf (Text.trim response) "profiles:" 0 <= 0 ->
   extractYAML response = Text.trim response)
  /\ (forall lead rest,
        Text.trim response = lead ++ "profiles:" ++ rest ->
        lead <> "" ->
        Text.indexOf (Text.trim response) "profiles:" 0 = Z.of_nat (String.length lead) ->
        extractYAML response = "profiles:" ++ rest).
Proof.
  intros Hplain.
  assert (Hsearch : Regex.search yamlBlockRegex (Text.trim response) = None)
    by (apply search_none; exact Hplain).
  unfold extractYAML. rewrite Hsearch. split.
  - intros Hstart.
    replace (Text.indexOf (Text.trim response) "profiles:" 0 >? 0) with false
      by (symmetry; rewrite Z.gtb_ltb; apply Z.ltb_ge; exact Hstart).
    apply trim_idempotent.
  - intros lead rest Hshape Hlead Hstart. rewrite Hstart.
    replace (Z.of_nat (String.length lead) >? 0) with true
      by (symmetry; rewrite Z.gtb_ltb; apply Z.ltb_lt; destruct lead; [contradiction | cbn; lia]).
    assert (Hcut : substring (Text.trim response) (Z.of_nat (String.length lead)) None
                   = "profiles:" ++ rest).
    { rewrite Hshape. unfold substring, clamp. rewrite append_length.
      set (n := String.length lead). set (m := String.length ("profiles:" ++ rest)).
      replace (Z.min (Z.max 0 (Z.min (Z.of_nat n) (Z.of_nat (n + m)))) (Z.of_nat (n + m)))
        with (Z.of_nat n) by lia.
      replace (Z.max (Z.max 0 (Z.min (Z.of_nat n) (Z.of_nat (n + m)))) (Z.of_nat (n + m)))
        with (Z.of_nat (n + m)) by lia.
      replace (Z.of_nat (n + m) - Z.of_nat n) with (Z.of_nat m) by lia.
      rewrite !Nat2Z.id. subst n m.
      rewrite <- (append_nil_r ("profiles:" ++ rest)) at 2.
      apply substring_middle. }
    rewrite Hcut.
    change ("profiles:" ++ rest) with (String "p" ("rofiles:" ++ rest)).
    rewrite trim_head by reflexivity.
    change (String "p" ("rofiles:" ++ rest)) with ("profiles:" ++ rest).
    apply (trimEnd_suffix lead); [discriminate |].
    rewrite <- Hshape. apply trim_fixed.
Qed.

(** X25. A fenced block is unwrapped: when the first three backticks
    of the trimmed response open a block (tagged [yaml] or not, then
    white space and a line break) whose content starts with
    [profiles:], and the first line break followed by three backticks
    from there on is the one closing that block, [extractYAML] returns
    the content of the block, trimmed, leaving out what precedes and
    follows the block. *)
Theorem extractYAML_fenced (response pre gap rest post : string) (tagged : bool) :
  let body := "profiles:" ++ rest in
  Text.trim response
  = pre ++ "```" ++ (if tagged then "yaml" else "") ++ gap
      ++ String Text.newline (body ++ String Text.newline "```" ++ post) ->
  Text.indexOf (Text.trim response) "```" 0 = Z.of_nat (String.length pre) ->
  trimStart gap = "" ->
  Text.indexOf (body ++ String Text.newline "```" ++ post) (String Text.newline "```") 0
  = Z.of_nat (String.length body) ->
  extractYAML response = Text.trim body.
Proof.
  intros body Hshape Hopen Hgap Hclose.
  rewrite indexOf_start in Hopen, Hclose.
  destruct (scan_before _ _ _ Hopen) as (pre' & input & Hsplit & Hlen & _ & Hsearch).
  rewrite Hshape in Hsplit.
  destruct (append_inj_length _ _ _ _ Hsplit (eq_sym Hlen)) as [_ Hinput].
  assert (Hblock : Regex.search yamlBlockRegex (Text.trim response) = Some (Some body)).
  { change yamlBlockRegex
      with (Regex.Seq (Regex.Lit "```")
              (Regex.Seq (Regex.Opt (Regex.Lit "yaml"))
                 (Regex.Seq (Regex.Star isWhite)
                    (Regex.Seq (Regex.Lit (String Text.newline ""))
                       (Regex.Seq (Regex.Group (Regex.LazyStar Regex.anyChar))
                          (Regex.Lit (String Text.newline "```"))))))).
    rewrite Hsearch, <- Hinput.
    pose proof (yamlBlock_at_fence tagged gap body post "p" ("rofiles:" ++ rest)
                  eq_refl Hgap eq_refl Hclose) as Hrun.
    destruct ("```" ++ (if tagged then "yaml" else "") ++ gap
               ++ String Text.newline (body ++ String Text.newline "```" ++ post));
      cbn [Regex.search]; unfold yamlBlockRegex in Hrun; rewrite Hrun; reflexivity. }
  unfold extractYAML. rewrite Hblock.
  assert (Hzero : Text.indexOf body "profiles:" 0 = 0).
  { rewrite indexOf_start. subst body. destruct rest; reflexivity. }
  rewrite Hzero. reflexivity.
Qed.

Lemma extractYAML_plain_witness :
  extractYAML Scenario.chatty
  = "profiles:" ++ String Text.newline ("  smoke: {}" ++ String Text.newline "Bye").
Proof.
  apply (proj2 (extractYAML_plain Scenario.chatty
                  ltac:(apply (proj1 (scan_none _ _ 0 ltac:(lia))); reflexivity))
           "Sure! ").
  - reflexivity.
  - discriminate.
  - reflexivity.
Defined.

Lemma extractYAML_fenced_witness :
  extractYAML Scenario.fenced = "profiles:" ++ String Text.newline "  smoke: {}".
Proof.
  exact (extractYAML_fenced Scenario.fenced
           ("Here is the profile:" ++ String Text.newline "") ""
           (String Text.newline "  smoke: {}") (String Text.newline "Good luck!") true
           eq_refl eq_refl eq_refl eq_refl).
Defined.
